(** * Flight booking API: the four Lambda handlers

    A shallow embedding of [src/flights/handler.py], [src/auth/handler.py],
    [src/bookings/handler.py] and [src/users/handler.py].

    Python values are an inductive type, dictionaries are association lists
    in insertion order (the order [json.dumps] prints them in), a Python
    function is a state-passing computation that either returns a value or
    raises an exception, and the DynamoDB table is an arbitrary stateful
    collaborator whose calls are recorded in a trace. *)

From Stdlib Require Import ZArith List String Ascii Bool Lia DecimalString.
Import ListNotations.
Local Open Scope string_scope.
Local Open Scope Z_scope.
Set Warnings "-register-all".

(** ** Python values *)

Module Py.

(** The values that reach the handlers.  An API Gateway event is decoded
    JSON: None, booleans, integers, strings, lists and dictionaries with
    string keys.  The table of the flights handler is
    [boto3.resource('dynamodb').Table(...)], whose reads additionally hand
    DynamoDB numbers back as [decimal.Decimal] (coefficient and exponent,
    so Decimal('89.99') is [VDecimal 8999 (-2)]) and DynamoDB sets as
    [set].  A character of a string is a code point below 256.  Floats are
    not modelled. *)
Inductive value : Type :=
| VNone
| VBool (b : bool)
| VInt (z : Z)
| VStr (s : string)
| VDecimal (coefficient exponent : Z)
| VSet (xs : list value)
| VList (xs : list value)
| VDict (kvs : list (string * value)).

Definition dict : Type := list (string * value).

(** An exception object: its class and the text [str(e)] gives. *)
Record exn : Type := Exn { exn_class : string; exn_text : string }.

Definition str (e : exn) : string := exn_text e.

(** What evaluating a Python expression or call produces. *)
Inductive outcome (A : Type) : Type :=
| Returns (a : A)
| Raises (e : exn).
Arguments Returns {A} a.
Arguments Raises {A} e.

Definition type_name (v : value) : string :=
  match v with
  | VNone => "NoneType"
  | VBool _ => "bool"
  | VInt _ => "int"
  | VStr _ => "str"
  | VDecimal _ _ => "Decimal"
  | VSet _ => "set"
  | VList _ => "list"
  | VDict _ => "dict"
  end.

(** The type as the messages of TypeError and AttributeError name it: the
    qualified name, which differs from the bare one for a Decimal. *)
Definition qualified_type_name (v : value) : string :=
  match v with
  | VDecimal _ _ => "decimal.Decimal"
  | _ => type_name v
  end.

(** Truth value testing, as [not x], [if x] and [x or y] use it. *)
Definition truthy (v : value) : bool :=
  match v with
  | VNone => false
  | VBool b => b
  | VInt z => negb (z =? 0)
  | VStr s => negb (String.eqb s "")
  | VDecimal c _ => negb (c =? 0)
  | VSet xs | VList xs => match xs with [] => false | _ :: _ => true end
  | VDict kvs => match kvs with [] => false | _ :: _ => true end
  end.

(** [x or y] *)
Definition py_or (x y : value) : value := if truthy x then x else y.

(** [v == s] for a string literal [s]: only an equal string compares equal. *)
Definition eq_str (v : value) (s : string) : bool :=
  match v with
  | VStr t => String.eqb t s
  | _ => false
  end.

(** Dictionary lookup by key. *)
Fixpoint lookup (kvs : dict) (k : string) : option value :=
  match kvs with
  | [] => None
  | (k', v) :: rest => if String.eqb k' k then Some v else lookup rest k
  end.

(** [d.get(k, default)] on a dict *)
Definition dict_get (d : dict) (k : string) (default : value) : value :=
  match lookup d k with
  | Some v => v
  | None => default
  end.

(** [d[k]] on a dict: KeyError when the key is missing; the text of a
    KeyError is the repr of the key. *)
Definition subscript (d : dict) (k : string) : outcome value :=
  match lookup d k with
  | Some v => Returns v
  | None => Raises (Exn "KeyError" ("'" ++ k ++ "'"))
  end.

(** [v.get(k, default)] on any value: only a dict has the method. *)
Definition method_get (v : value) (k : string) (default : value) : outcome value :=
  match v with
  | VDict d => Returns (dict_get d k default)
  | _ => Raises (Exn "AttributeError"
                     ("'" ++ qualified_type_name v ++ "' object has no attribute 'get'"))
  end.

(** [p in s] on strings: [p] occurs somewhere in [s]. *)
Fixpoint is_infix (p s : string) : bool :=
  if String.prefix p s then true
  else match s with
       | EmptyString => false
       | String _ rest => is_infix p rest
       end.

(** [s in v] for a string literal [s]: substring test on a string,
    membership on a list or a set, key membership on a dict, TypeError on
    everything else. *)
Definition contains (s : string) (v : value) : outcome bool :=
  match v with
  | VStr t => Returns (is_infix s t)
  | VList xs | VSet xs => Returns (existsb (fun x => eq_str x s) xs)
  | VDict kvs => Returns (match lookup kvs s with Some _ => true | None => false end)
  | _ => Raises (Exn "TypeError"
                     ("argument of type '" ++ qualified_type_name v ++ "' is not iterable"))
  end.

End Py.

(** ** json.dumps *)

Module Json.
Import Py.

Definition dquote : ascii := "034"%char.
Definition backslash : ascii := "092"%char.

Definition hex_digit (n : nat) : ascii :=
  match n with
  | 0 => "0" | 1 => "1" | 2 => "2" | 3 => "3" | 4 => "4" | 5 => "5"
  | 6 => "6" | 7 => "7" | 8 => "8" | 9 => "9" | 10 => "a" | 11 => "b"
  | 12 => "c" | 13 => "d" | 14 => "e" | _ => "f"
  end%nat%char.

(** One character under ensure_ascii=True: quote and backslash are escaped,
    the five short escapes are used, every other character outside
    space..tilde becomes a four-digit hexadecimal escape. *)
Definition escape_char (c : ascii) : string :=
  let n := nat_of_ascii c in
  if Ascii.eqb c dquote then String backslash (String dquote "")
  else if Ascii.eqb c backslash then String backslash (String backslash "")
  else if (n =? 10)%nat then String backslash "n"
  else if (n =? 13)%nat then String backslash "r"
  else if (n =? 9)%nat then String backslash "t"
  else if (n =? 8)%nat then String backslash "b"
  else if (n =? 12)%nat then String backslash "f"
  else if ((n <? 32) || (126 <? n))%nat then
    String backslash
      (String "u" (String "0" (String "0"
         (String (hex_digit (n / 16)) (String (hex_digit (n mod 16)) "")))))
  else String c "".

Fixpoint escape (s : string) : string :=
  match s with
  | EmptyString => ""
  | String c rest => escape_char c ++ escape rest
  end.

(** A string as a JSON string literal. *)
Definition encode_str (s : string) : string :=
  String dquote (escape s ++ String dquote "").

Definition encode_int (z : Z) : string := NilZero.string_of_int (Z.to_int z).

Definition not_serializable (v : value) : exn :=
  Exn "TypeError" ("Object of type " ++ type_name v ++ " is not JSON serializable").

(** [json.dumps(v)] with the default separators.  Decimal and set objects
    are rejected with a TypeError, raised at the first such object met in
    printing order. *)
Fixpoint dumps (v : value) : outcome string :=
  match v with
  | VNone => Returns "null"
  | VBool true => Returns "true"
  | VBool false => Returns "false"
  | VInt z => Returns (encode_int z)
  | VStr s => Returns (encode_str s)
  | VDecimal _ _ | VSet _ => Raises (not_serializable v)
  | VList xs =>
      let fix elements (first : bool) (xs : list value) : outcome string :=
        match xs with
        | [] => Returns ""
        | x :: rest =>
            match dumps x with
            | Raises e => Raises e
            | Returns s =>
                match elements false rest with
                | Raises e => Raises e
                | Returns t => Returns ((if first then "" else ", ") ++ s ++ t)
                end
            end
        end in
      match elements true xs with
      | Raises e => Raises e
      | Returns s => Returns ("[" ++ s ++ "]")
      end
  | VDict kvs =>
      let fix members (first : bool) (kvs : list (string * value)) : outcome string :=
        match kvs with
        | [] => Returns ""
        | (k, x) :: rest =>
            match dumps x with
            | Raises e => Raises e
            | Returns s =>
                match members false rest with
                | Raises e => Raises e
                | Returns t =>
                    Returns ((if first then "" else ", ")
                               ++ encode_str k ++ ": " ++ s ++ t)
                end
            end
        end in
      match members true kvs with
      | Raises e => Raises e
      | Returns s => Returns ("{" ++ s ++ "}")
      end
  end.

(** Reading aid for expected texts: every apostrophe stands for a double
    quote. *)
Fixpoint jq (s : string) : string :=
  match s with
  | EmptyString => ""
  | String c rest => String (if Ascii.eqb c "'" then dquote else c) (jq rest)
  end.

End Json.

(** The headers dict that the 200 responses of the flights handler and the
    responses of the stubs carry. *)
Definition json_headers : Py.value :=
  Py.VDict [("Content-Type", Py.VStr "application/json");
            ("Access-Control-Allow-Origin", Py.VStr "*")].

(** ** Effects: state passing with exceptions *)

Module Eff.
Import Py.

(** A Python function body over a mutable environment [St]: it ends by
    returning or by raising, and leaves an environment behind either way. *)
Definition M (St A : Type) : Type := St -> outcome A * St.

Definition ret {St A} (a : A) : M St A := fun s => (Returns a, s).

Definition bind {St A B} (c : M St A) (k : A -> M St B) : M St B :=
  fun s =>
    match c s with
    | (Returns a, s') => k a s'
    | (Raises e, s') => (Raises e, s')
    end.

(** An effect-free expression that may raise. *)
Definition lift {St A} (o : outcome A) : M St A := fun s => (o, s).

(** [try: c  except Exception as e: h e] *)
Definition try_except {St A} (c : M St A) (h : exn -> M St A) : M St A :=
  fun s =>
    match c s with
    | (Returns a, s') => (Returns a, s')
    | (Raises e, s') => h e s'
    end.

Declare Scope py_scope.
Delimit Scope py_scope with py.
Notation "x <- c ;; k" := (bind c (fun x => k))
  (at level 100, c at next level, right associativity) : py_scope.

End Eff.

(** ** The flights handler *)

Module Flights.
Import Py Json Eff.
Local Open Scope py_scope.

(** The two reads the handler issues against the table. *)
Inductive call : Type :=
| Scan
| GetItem (key : value).

(** The boto3 table as a collaborator with a state [S] of its own: each
    read returns a response or raises, and may change that state. *)
Record table (S : Type) : Type := Table {
  scan : S -> outcome value * S;
  get_item : value -> S -> outcome value * S
}.
Arguments Table {S} scan get_item.
Arguments scan {S} t s.
Arguments get_item {S} t key s.

(** The environment of one invocation: the table's state and the trace of
    the reads issued so far. *)
Record world (S : Type) : Type := World {
  store : S;
  calls : list call
}.
Arguments World {S} store calls.
Arguments store {S} w.
Arguments calls {S} w.

Section Handler.

Context {S : Type} (table : table S).

(** [table.scan()] *)
Definition table_scan : M (world S) value :=
  fun w =>
    let (r, s') := scan table (store w) in
    (r, World s' (calls w ++ [Scan])%list).

(** [table.get_item(Key=key)] *)
Definition table_get_item (key : value) : M (world S) value :=
  fun w =>
    let (r, s') := get_item table key (store w) in
    (r, World s' (calls w ++ [GetItem key])%list).

Definition list_flights (event : dict) : M (world S) value :=
  try_except
    (response <- table_scan ;;
     items <- lift (method_get response "Items" (VList [])) ;;
     body <- lift (dumps (VDict [("success", VBool true); ("data", items)])) ;;
     ret (VDict [("statusCode", VInt 200);
                 ("headers", json_headers);
                 ("body", VStr body)]))
    (fun e =>
       body <- lift (dumps (VDict [("error", VStr (str e))])) ;;
       ret (VDict [("statusCode", VInt 500); ("body", VStr body)])).

Definition get_flight (event : dict) : M (world S) value :=
  let path_params := dict_get event "pathParameters" (VDict []) in
  flight_id <- lift (method_get path_params "flight_id" (VStr "")) ;;
  if negb (truthy flight_id) then
    body <- lift (dumps (VDict [("error", VStr "Missing flight_id")])) ;;
    ret (VDict [("statusCode", VInt 400); ("body", VStr body)])
  else
    try_except
      (response <- table_get_item (VDict [("flight_id", flight_id)]) ;;
       item <- lift (method_get response "Item" VNone) ;;
       if negb (truthy item) then
         body <- lift (dumps (VDict [("error", VStr "Flight not found")])) ;;
         ret (VDict [("statusCode", VInt 404); ("body", VStr body)])
       else
         body <- lift (dumps (VDict [("success", VBool true); ("data", item)])) ;;
         ret (VDict [("statusCode", VInt 200);
                     ("headers", json_headers);
                     ("body", VStr body)]))
      (fun e =>
         body <- lift (dumps (VDict [("error", VStr (str e))])) ;;
         ret (VDict [("statusCode", VInt 500); ("body", VStr body)])).

(** The return at the end of [lambda_handler], reached from every branch
    that has not returned. *)
Definition not_found : M (world S) value :=
  body <- lift (dumps (VDict [("error", VStr "Not found")])) ;;
  ret (VDict [("statusCode", VInt 404); ("body", VStr body)]).

Definition lambda_handler (event : dict) (context : value) : M (world S) value :=
  http_method <- lift (subscript event "httpMethod") ;;
  path <- lift (subscript event "path") ;;
  if eq_str http_method "GET" then
    if eq_str path "/flights" then
      r <- list_flights event ;;
      ret (py_or r (VDict [("statusCode", VInt 204);
                           ("body", VStr "No flights found")]))
    else
      inside <- lift (contains "/flights/" path) ;;
      if (inside : bool) then
        r <- get_flight event ;;
        ret (py_or r (VDict [("statusCode", VInt 204);
                             ("body", VStr "Flight not found")]))
      else not_found
  else not_found.

End Handler.

End Flights.

(** ** The stub handlers *)

(** The stubs touch no table; their environment is what they have printed. *)
Definition stdout : Type := list string.

Definition print (line : string) : Eff.M stdout unit :=
  fun out => (Py.Returns tt, (out ++ [line])%list).

Module Auth.
Import Py Json Eff.
Local Open Scope py_scope.

Definition lambda_handler (event : dict) (context : value) : M stdout value :=
  text <- lift (dumps (VDict event)) ;;
  _ <- print ("Received event: " ++ text) ;;
  http_method <- lift (subscript event "httpMethod") ;;
  path <- lift (subscript event "path") ;;
  body <- lift (dumps (VDict [("message", VStr "Auth endpoint not implemented yet");
                              ("received_path", path);
                              ("received_method", http_method)])) ;;
  ret (VDict [("statusCode", VInt 501);
              ("headers", json_headers);
              ("body", VStr body)]).

End Auth.

Module Bookings.
Import Py Json Eff.
Local Open Scope py_scope.

Definition lambda_handler (event : dict) (context : value) : M stdout value :=
  text <- lift (dumps (VDict event)) ;;
  _ <- print ("Received event: " ++ text) ;;
  http_method <- lift (subscript event "httpMethod") ;;
  path <- lift (subscript event "path") ;;
  body <- lift (dumps (VDict [("message", VStr "Bookings endpoint not implemented yet");
                              ("received_path", path);
                              ("received_method", http_method);
                              ("note", VStr "Will handle: create booking, list bookings, cancel booking")])) ;;
  ret (VDict [("statusCode", VInt 501);
              ("headers", json_headers);
              ("body", VStr body)]).

End Bookings.

Module Users.
Import Py Json Eff.
Local Open Scope py_scope.

(** [v is not None] *)
Definition is_not_none (v : value) : bool :=
  match v with
  | VNone => false
  | _ => true
  end.

Definition lambda_handler (event : dict) (context : value) : M stdout value :=
  text <- lift (dumps (VDict event)) ;;
  _ <- print ("Received event: " ++ text) ;;
  http_method <- lift (subscript event "httpMethod") ;;
  path <- lift (subscript event "path") ;;
  let headers := dict_get event "headers" (VDict []) in
  upper <- lift (method_get headers "Authorization" VNone) ;;
  auth_header <-
    (if truthy upper then ret upper
     else lift (method_get headers "authorization" VNone)) ;;
  body <- lift (dumps (VDict [("message", VStr "Users endpoint not implemented yet");
                              ("received_path", path);
                              ("received_method", http_method);
                              ("has_auth_header", VBool (is_not_none auth_header));
                              ("note", VStr "Will return user profile based on JWT token")])) ;;
  ret (VDict [("statusCode", VInt 501);
              ("headers", json_headers);
              ("body", VStr body)]).

End Users.

(** ** Test doubles *)

Module Doubles.
Import Py Flights.

Definition has_id (fid : string) (record : value) : bool :=
  match record with
  | VDict d => eq_str (dict_get d "flight_id" VNone) fid
  | _ => false
  end.

(** A table held in memory: the state is the list of records, a scan
    returns them in order, a lookup returns the first record with the key. *)
Definition memory_table : table (list value) :=
  Table
    (fun records => (Returns (VDict [("Items", VList records)]), records))
    (fun key records =>
       match key with
       | VDict [(_, VStr fid)] =>
           match find (has_id fid) records with
           | Some r => (Returns (VDict [("Item", r)]), records)
           | None => (Returns (VDict []), records)
           end
       | _ => (Raises (Exn "ClientError" "The provided key element does not match the schema"),
               records)
       end).

(** A table whose every read raises [e]. *)
Definition broken_table (e : exn) : table unit :=
  Table (fun s => (Raises e, s)) (fun _ s => (Raises e, s)).

(** GET on [path] with the given flight_id path parameter. *)
Definition get_event (path fid : string) : dict :=
  [("httpMethod", VStr "GET"); ("path", VStr path);
   ("pathParameters", VDict [("flight_id", VStr fid)])].

(** The record of the handler's own docstring, as the table hands it back:
    the price, a DynamoDB number, is a Decimal. *)
Definition fl123 : value :=
  VDict [("flight_id", VStr "FL123"); ("origin", VStr "MAD");
         ("destination", VStr "BCN"); ("price", VDecimal 8999 (-2))].

(** A record with string attributes only. *)
Definition fl456 : value :=
  VDict [("flight_id", VStr "FL456"); ("origin", VStr "BCN");
         ("destination", VStr "MAD")].

End Doubles.

(** ** Responses *)

Import Py Json Eff.

(** The status code of a response dict. *)
Definition status (resp : value) : option value :=
  match resp with
  | VDict d => lookup d "statusCode"
  | _ => None
  end.

(** The headers entry of a response dict. *)
Definition headers_of (resp : value) : option value :=
  match resp with
  | VDict d => lookup d "headers"
  | _ => None
  end.

(** A structured response: a dict with an integer statusCode and a string
    body. *)
Definition is_response (resp : value) : bool :=
  match resp with
  | VDict d =>
      match lookup d "statusCode", lookup d "body" with
      | Some (VInt _), Some (VStr _) => true
      | _, _ => false
      end
  | _ => false
  end.

(** The text of [json.dumps({'error': m})]. *)
Definition error_body (m : string) : string :=
  jq "{'error': " ++ encode_str m ++ "}".

(** The text of [json.dumps({'success': True, 'data': v})], given the text
    of [v]. *)
Definition success_body (data : string) : string :=
  jq "{'success': true, 'data': " ++ data ++ "}".

Definition response (code : Z) (body : string) : value :=
  VDict [("statusCode", VInt code); ("body", VStr body)].

Definition response_with_headers (code : Z) (body : string) : value :=
  VDict [("statusCode", VInt code);
         ("headers", json_headers);
         ("body", VStr body)].

(** What the except clause of both operations answers. *)
Definition answer_500 {S : Type} (e : exn) (w : Flights.world S)
  : outcome value * Flights.world S :=
  (Returns (response 500 (error_body (str e))), w).

(** The status codes the two operations answer with. *)
Definition operation_status (r : value) : Prop :=
  In (status r) [Some (VInt 200); Some (VInt 400); Some (VInt 404); Some (VInt 500)].

(** A printable ASCII character other than the double quote and the
    backslash: [escape] leaves a text of such characters as it is, so such
    an error message shows up in the body letter for letter. *)
Definition plain (c : ascii) : bool :=
  let n := nat_of_ascii c in
  ((32 <=? n) && (n <=? 126))%nat && negb (Ascii.eqb c dquote)
  && negb (Ascii.eqb c backslash).

(** A value built from None, booleans, integers, strings, lists and dicts
    only: what decoding JSON gives, and what [json.dumps] accepts. *)
Fixpoint json_pure (v : value) : bool :=
  match v with
  | VNone | VBool _ | VInt _ | VStr _ => true
  | VDecimal _ _ | VSet _ => false
  | VList xs =>
      (fix all (xs : list value) : bool :=
         match xs with
         | [] => true
         | x :: rest => json_pure x && all rest
         end) xs
  | VDict kvs =>
      (fix all (kvs : list (string * value)) : bool :=
         match kvs with
         | [] => true
         | (_, x) :: rest => json_pure x && all rest
         end) kvs
  end.

(** The TypeError [json.dumps] raises on a Decimal or on a set. *)
Definition dumps_type_error (e : exn) : Prop :=
  e = Exn "TypeError" "Object of type Decimal is not JSON serializable"
  \/ e = Exn "TypeError" "Object of type set is not JSON serializable".

(** The bodies of the three stubs, given the texts [json.dumps] prints for
    the event's path and method. *)
Definition auth_body (path method : string) : string :=
  jq "{'message': 'Auth endpoint not implemented yet', 'received_path': "
    ++ path ++ jq ", 'received_method': " ++ method ++ "}".

Definition bookings_body (path method : string) : string :=
  jq "{'message': 'Bookings endpoint not implemented yet', 'received_path': "
    ++ path ++ jq ", 'received_method': " ++ method
    ++ jq ", 'note': 'Will handle: create booking, list bookings, cancel booking'}".

Definition users_body (path method : string) (has_auth_header : bool) : string :=
  jq "{'message': 'Users endpoint not implemented yet', 'received_path': "
    ++ path ++ jq ", 'received_method': " ++ method
    ++ jq ", 'has_auth_header': " ++ (if has_auth_header then "true" else "false")
    ++ jq ", 'note': 'Will return user profile based on JWT token'}".

(** The line a stub prints for an event, given the event's text. *)
Definition log_line (event_text : string) : string :=
  "Received event: " ++ event_text.

(** Reading a body back, the way a client decodes it.  [read_string] reads
    a JSON string literal from just after its opening quote up to its
    closing quote and returns the string and what follows the literal.  It
    takes the escapes of the JSON grammar: the quote, the backslash and the
    solidus after a backslash, the five letters b f n r t, and u followed
    by four hexadecimal digits in either case.  A raw control character
    ends the reading with a failure, as it does in [json.loads].  Strings
    here hold code points below 256, so a u escape of a larger code point
    has no reading in this model and is answered None. *)
Definition hex_value (c : ascii) : option nat :=
  let n := nat_of_ascii c in
  if ((48 <=? n) && (n <=? 57))%nat then Some (n - 48)%nat
  else if ((97 <=? n) && (n <=? 102))%nat then Some (n - 87)%nat
  else if ((65 <=? n) && (n <=? 70))%nat then Some (n - 55)%nat
  else None.

Definition push (c : ascii) (r : option (string * string)) : option (string * string) :=
  match r with
  | Some (text, rest) => Some (String c text, rest)
  | None => None
  end.

Fixpoint read_string (s : string) : option (string * string) :=
  match s with
  | EmptyString => None
  | String c rest =>
      if Ascii.eqb c dquote then Some ("", rest)
      else if Ascii.eqb c backslash then
        match rest with
        | EmptyString => None
        | String d rest' =>
            if Ascii.eqb d dquote then push dquote (read_string rest')
            else if Ascii.eqb d backslash then push backslash (read_string rest')
            else if Ascii.eqb d "/" then push "/" (read_string rest')
            else if Ascii.eqb d "n" then push "010" (read_string rest')
            else if Ascii.eqb d "r" then push "013" (read_string rest')
            else if Ascii.eqb d "t" then push "009" (read_string rest')
            else if Ascii.eqb d "b" then push "008" (read_string rest')
            else if Ascii.eqb d "f" then push "012" (read_string rest')
            else if Ascii.eqb d "u" then
              match rest' with
              | String h3 (String h2 (String h1 (String h0 rest''))) =>
                  match hex_value h3, hex_value h2, hex_value h1, hex_value h0 with
                  | Some a3, Some a2, Some a1, Some a0 =>
                      let code := (((a3 * 16 + a2) * 16 + a1) * 16 + a0)%nat in
                      if (code <? 256)%nat
                      then push (ascii_of_nat code) (read_string rest'')
                      else None
                  | _, _, _, _ => None
                  end
              | _ => None
              end
            else None
        end
      else if (nat_of_ascii c <? 32)%nat then None
      else push c (read_string rest)
  end.

(** [s] without its prefix [p], when it has it. *)
Fixpoint strip_prefix (p s : string) : option string :=
  match p, s with
  | EmptyString, _ => Some s
  | String a p', String b s' => if Ascii.eqb a b then strip_prefix p' s' else None
  | String _ _, EmptyString => None
  end.

(** The error text of a body of the form [json.dumps({'error': m})]. *)
Definition read_error_body (body : string) : option string :=
  match strip_prefix (jq "{'error': '") body with
  | Some literal =>
      match read_string literal with
      | Some (m, "}") => Some m
      | _ => None
      end
  | None => None
  end.

(** Induction on values that reaches the elements of lists, sets and
    dicts. *)
Section ValueInduction.

Variable P : value -> Prop.
Hypothesis none_case : P VNone.
Hypothesis bool_case : forall b, P (VBool b).
Hypothesis int_case : forall z, P (VInt z).
Hypothesis str_case : forall s, P (VStr s).
Hypothesis decimal_case : forall c e, P (VDecimal c e).
Hypothesis set_case : forall xs, Forall P xs -> P (VSet xs).
Hypothesis list_case : forall xs, Forall P xs -> P (VList xs).
Hypothesis dict_case : forall kvs, Forall (fun kv => P (snd kv)) kvs -> P (VDict kvs).

Fixpoint value_nested_ind (v : value) : P v :=
  match v with
  | VNone => none_case
  | VBool b => bool_case b
  | VInt z => int_case z
  | VStr s => str_case s
  | VDecimal c e => decimal_case c e
  | VSet xs =>
      set_case xs
        ((fix each (xs : list value) : Forall P xs :=
            match xs with
            | [] => Forall_nil P
            | x :: rest => Forall_cons x (value_nested_ind x) (each rest)
            end) xs)
  | VList xs =>
      list_case xs
        ((fix each (xs : list value) : Forall P xs :=
            match xs with
            | [] => Forall_nil P
            | x :: rest => Forall_cons x (value_nested_ind x) (each rest)
            end) xs)
  | VDict kvs =>
      dict_case kvs
        ((fix each (kvs : list (string * value))
            : Forall (fun kv => P (snd kv)) kvs :=
            match kvs with
            | [] => Forall_nil _
            | (k, x) :: rest =>
                Forall_cons (k, x) (value_nested_ind x) (each rest)
            end) kvs)
  end.

End ValueInduction.

(** ** Facts about the Python layer *)

Lemma is_response_truthy (r : value) : is_response r = true -> truthy r = true.
Proof.
  destruct r as [| | | | | | |d]; simpl; try discriminate.
  destruct d; simpl; [discriminate | reflexivity].
Qed.

Lemma py_or_response (r fallback : value) :
  is_response r = true -> py_or r fallback = r.
Proof.
  intros H. unfold py_or. now rewrite (is_response_truthy r H).
Qed.

Lemma append_nil_r (s : string) : s ++ "" = s.
Proof. induction s; simpl; congruence. Qed.

Lemma append_assoc (a b c : string) : (a ++ b) ++ c = a ++ b ++ c.
Proof. induction a; simpl; congruence. Qed.

Lemma dumps_error (m : string) :
  dumps (VDict [("error", VStr m)]) = Returns (error_body m).
Proof.
  unfold error_body. cbn [dumps]. generalize (encode_str m). intros text.
  now rewrite ?append_nil_r, ?append_assoc.
Qed.

Lemma dumps_success (data : value) :
  dumps (VDict [("success", VBool true); ("data", data)]) =
  match dumps data with
  | Returns text => Returns (success_body text)
  | Raises e => Raises e
  end.
Proof.
  cbn [dumps]. destruct (dumps data) as [text|e]; [|reflexivity].
  unfold success_body. now rewrite ?append_nil_r, ?append_assoc.
Qed.

Lemma prefix_app (p s : string) :
  String.prefix p s = true <-> exists rest, s = p ++ rest.
Proof.
  revert s. induction p as [|c p IH]; intros s.
  - split; [intros _; now exists s | now destruct s].
  - destruct s as [|d s]; simpl.
    + split; [discriminate | intros [rest H]; discriminate].
    + destruct (ascii_dec c d) as [->|Hcd].
      * rewrite IH. split; intros [rest H]; exists rest.
        -- now rewrite H.
        -- now inversion H.
      * split; [discriminate | intros [rest H]; inversion H; congruence].
Qed.

Lemma is_infix_unfold (p s : string) :
  is_infix p s =
  String.prefix p s ||
  match s with
  | EmptyString => false
  | String _ rest => is_infix p rest
  end.
Proof.
  destruct s as [|c s]; simpl.
  - now destruct (String.prefix p "").
  - now destruct (String.prefix p (String c s)).
Qed.

(** [is_infix p s] holds exactly when [p] occurs somewhere inside [s]. *)
Lemma is_infix_app (p s : string) :
  is_infix p s = true <-> exists before after, s = before ++ p ++ after.
Proof.
  induction s as [|c s IH]; rewrite is_infix_unfold, orb_true_iff, prefix_app.
  - split.
    + intros [[rest H]|H]; [now exists "", rest | discriminate].
    + intros [before [after H]]. left. exists after.
      destruct before; [exact H | discriminate].
  - rewrite IH. split.
    + intros [[rest H]|[before [after H]]].
      * now exists "", rest.
      * exists (String c before), after. simpl. now rewrite H.
    + intros [before [after H]]. destruct before as [|b before].
      * left. now exists after.
      * right. simpl in H. inversion H. now exists before, after.
Qed.

(** ** The flights handler, case by case *)

Section FlightsFacts.

Import Flights.
Context {S : Type} (tbl : table S).

(** [list_flights] as one case analysis on what the scan does. *)
Lemma list_flights_run (event : dict) (w : world S) :
  list_flights tbl event w =
  let w' := World (snd (scan tbl (store w))) (calls w ++ [Scan]) in
  match fst (scan tbl (store w)) with
  | Raises e => answer_500 e w'
  | Returns resp =>
      match method_get resp "Items" (VList []) with
      | Raises e => answer_500 e w'
      | Returns items =>
          match dumps items with
          | Raises e => answer_500 e w'
          | Returns text =>
              (Returns (response_with_headers 200 (success_body text)), w')
          end
      end
  end.
Proof.
  unfold list_flights, try_except, bind, table_scan, lift, ret, answer_500.
  destruct (scan tbl (store w)) as [[resp|e] s']; cbn [fst snd].
  - destruct (method_get resp "Items" (VList [])) as [items|e].
    + rewrite dumps_success. destruct (dumps items) as [text|e].
      * reflexivity.
      * now rewrite dumps_error.
    + now rewrite dumps_error.
  - now rewrite dumps_error.
Qed.

(** [get_flight] as one case analysis on the path parameters and on what
    the lookup does. *)
Lemma get_flight_run (event : dict) (w : world S) :
  get_flight tbl event w =
  match method_get (dict_get event "pathParameters" (VDict []))
                   "flight_id" (VStr "") with
  | Raises e => (Raises e, w)
  | Returns flight_id =>
      if truthy flight_id then
        let key := VDict [("flight_id", flight_id)] in
        let w' := World (snd (get_item tbl key (store w)))
                        (calls w ++ [GetItem key]) in
        match fst (get_item tbl key (store w)) with
        | Raises e => answer_500 e w'
        | Returns resp =>
            match method_get resp "Item" VNone with
            | Raises e => answer_500 e w'
            | Returns item =>
                if truthy item then
                  match dumps item with
                  | Raises e => answer_500 e w'
                  | Returns text =>
                      (Returns (response_with_headers 200 (success_body text)), w')
                  end
                else (Returns (response 404 (error_body "Flight not found")), w')
            end
        end
      else (Returns (response 400 (error_body "Missing flight_id")), w)
  end.
Proof.
  unfold get_flight, try_except, bind, table_get_item, lift, ret, answer_500.
  destruct (method_get _ "flight_id" _) as [flight_id|e]; [|reflexivity].
  destruct (truthy flight_id); cbn [negb]; [|now rewrite dumps_error].
  destruct (get_item tbl _ (store w)) as [[resp|e] s']; cbn [fst snd].
  - destruct (method_get resp "Item" VNone) as [item|e].
    + destruct (truthy item); cbn [negb].
      * rewrite dumps_success. destruct (dumps item) as [text|e].
        -- reflexivity.
        -- now rewrite dumps_error.
      * now rewrite dumps_error.
    + now rewrite dumps_error.
  - now rewrite dumps_error.
Qed.

Lemma not_found_run (w : world S) :
  not_found w = (Returns (response 404 (error_body "Not found")), w).
Proof. reflexivity. Qed.

(** Every scan is answered, with a structured response, after exactly one
    read. *)
Lemma list_flights_returns (event : dict) (w : world S) :
  exists r s',
    list_flights tbl event w = (Returns r, World s' (calls w ++ [Scan]))
    /\ is_response r = true.
Proof.
  rewrite list_flights_run. cbv zeta. unfold answer_500.
  destruct (fst (scan tbl (store w))) as [resp|e]; [|now eauto].
  destruct (method_get resp "Items" (VList [])) as [items|e]; [|now eauto].
  destruct (dumps items) as [text|e]; now eauto.
Qed.

(** Whatever [get_flight] returns is a structured response. *)
Lemma get_flight_response (event : dict) (w w' : world S) (r : value) :
  get_flight tbl event w = (Returns r, w') -> is_response r = true.
Proof.
  rewrite get_flight_run. cbv zeta. unfold answer_500.
  destruct (method_get _ "flight_id" _) as [flight_id|e]; [|discriminate].
  destruct (truthy flight_id); [|now intros [= <- _]].
  destruct (fst (get_item tbl _ (store w))) as [resp|e]; [|now intros [= <- _]].
  destruct (method_get resp "Item" VNone) as [item|e]; [|now intros [= <- _]].
  destruct (truthy item); [|now intros [= <- _]].
  destruct (dumps item) as [text|e]; now intros [= <- _].
Qed.

(** [get_flight] returns whenever the pathParameters entry is absent or a
    mapping. *)
Lemma get_flight_returns (event : dict) (w : world S) :
  lookup event "pathParameters" = None
  \/ (exists pp, lookup event "pathParameters" = Some (VDict pp)) ->
  exists r w', get_flight tbl event w = (Returns r, w').
Proof.
  intros Hpp. rewrite get_flight_run. cbv zeta. unfold answer_500, dict_get.
  destruct Hpp as [-> | [pp ->]]; cbn [method_get];
    match goal with |- context [truthy ?v] => destruct (truthy v) end;
    try (now eauto);
    match goal with |- context [fst ?c] => destruct (fst c) as [resp|e] end;
    try (now eauto);
    (destruct (method_get resp "Item" VNone) as [item|e]; [|now eauto]);
    (destruct (truthy item); [|now eauto]);
    destruct (dumps item); now eauto.
Qed.

(** [get_flight] issues at most one read. *)
Lemma get_flight_calls (event : dict) (w : world S) :
  exists cs, calls (snd (get_flight tbl event w)) = (calls w ++ cs)%list
             /\ (List.length cs <= 1)%nat.
Proof.
  rewrite get_flight_run. cbv zeta. unfold answer_500.
  assert (Hnil : exists cs, calls w = (calls w ++ cs)%list /\ (List.length cs <= 1)%nat)
    by (exists []; rewrite app_nil_r; simpl; split; [reflexivity | lia]).
  destruct (method_get _ "flight_id" _) as [flight_id|e]; [|exact Hnil].
  destruct (truthy flight_id); [|exact Hnil].
  exists [GetItem (VDict [("flight_id", flight_id)])].
  split; [|simpl; lia].
  destruct (fst (get_item tbl _ (store w))) as [resp|e]; [|reflexivity].
  destruct (method_get resp "Item" VNone) as [item|e]; [|reflexivity].
  destruct (truthy item); [|reflexivity].
  destruct (dumps item); reflexivity.
Qed.

Lemma list_flights_status (event : dict) (w w' : world S) (r : value) :
  list_flights tbl event w = (Returns r, w') -> operation_status r.
Proof.
  rewrite list_flights_run. cbv zeta. unfold answer_500, operation_status.
  destruct (fst (scan tbl (store w))) as [resp|e];
    [|intros [= <- _]; simpl; tauto].
  destruct (method_get resp "Items" (VList [])) as [items|e];
    [|intros [= <- _]; simpl; tauto].
  destruct (dumps items) as [text|e]; intros [= <- _]; simpl; tauto.
Qed.

Lemma get_flight_status (event : dict) (w w' : world S) (r : value) :
  get_flight tbl event w = (Returns r, w') -> operation_status r.
Proof.
  rewrite get_flight_run. cbv zeta. unfold answer_500, operation_status.
  destruct (method_get _ "flight_id" _) as [flight_id|e]; [|discriminate].
  destruct (truthy flight_id); [|intros [= <- _]; simpl; tauto].
  destruct (fst (get_item tbl _ (store w))) as [resp|e];
    [|intros [= <- _]; simpl; tauto].
  destruct (method_get resp "Item" VNone) as [item|e];
    [|intros [= <- _]; simpl; tauto].
  destruct (truthy item); [|intros [= <- _]; simpl; tauto].
  destruct (dumps item) as [text|e]; intros [= <- _]; simpl; tauto.
Qed.

(** The 204 fallback of the router is never taken: [x or fallback] is [x]
    for whatever the operations return. *)
Lemma list_flights_or (event : dict) (fallback : value) (w : world S) :
  bind (list_flights tbl event) (fun r => ret (py_or r fallback)) w =
  list_flights tbl event w.
Proof.
  unfold bind, ret.
  destruct (list_flights_returns event w) as [r [s' [E Hr]]].
  rewrite E. now rewrite py_or_response.
Qed.

Lemma get_flight_or (event : dict) (fallback : value) (w : world S) :
  bind (get_flight tbl event) (fun r => ret (py_or r fallback)) w =
  get_flight tbl event w.
Proof.
  unfold bind, ret.
  destruct (get_flight tbl event w) as [[r|e] w'] eqn:E; [|reflexivity].
  now rewrite (py_or_response r fallback (get_flight_response event w w' r E)).
Qed.

(** The router as one case analysis on the event. *)
Lemma lambda_handler_run (event : dict) (context : value) (w : world S) :
  lambda_handler tbl event context w =
  match subscript event "httpMethod" with
  | Raises e => (Raises e, w)
  | Returns http_method =>
      match subscript event "path" with
      | Raises e => (Raises e, w)
      | Returns path =>
          if eq_str http_method "GET" then
            if eq_str path "/flights" then list_flights tbl event w
            else
              match contains "/flights/" path with
              | Raises e => (Raises e, w)
              | Returns true => get_flight tbl event w
              | Returns false =>
                  (Returns (response 404 (error_body "Not found")), w)
              end
          else (Returns (response 404 (error_body "Not found")), w)
      end
  end.
Proof.
  unfold lambda_handler.
  unfold bind at 1. unfold lift at 1.
  destruct (subscript event "httpMethod") as [http_method|e]; [|reflexivity].
  unfold bind at 1. unfold lift at 1.
  destruct (subscript event "path") as [path|e]; [|reflexivity].
  destruct (eq_str http_method "GET"); [|apply not_found_run].
  destruct (eq_str path "/flights"); [apply list_flights_or|].
  unfold bind at 1. unfold lift at 1.
  destruct (contains "/flights/" path) as [[|]|e];
    [apply get_flight_or | apply not_found_run | reflexivity].
Qed.

(** The router on a request whose method and path are strings. *)
Lemma lambda_handler_strings (event : dict) (context : value) (w : world S)
      (m p : string) :
  lookup event "httpMethod" = Some (VStr m) ->
  lookup event "path" = Some (VStr p) ->
  lambda_handler tbl event context w =
  if String.eqb m "GET" then
    if String.eqb p "/flights" then list_flights tbl event w
    else if is_infix "/flights/" p then get_flight tbl event w
         else (Returns (response 404 (error_body "Not found")), w)
  else (Returns (response 404 (error_body "Not found")), w).
Proof.
  intros Hm Hp. rewrite lambda_handler_run. unfold subscript.
  rewrite Hm, Hp. reflexivity.
Qed.

(** Found and printable: the record goes out in a 200 response. *)
Lemma get_flight_found (event pp resp : dict) (fid item : value)
      (text : string) (s' : S) (w : world S) :
  dict_get event "pathParameters" (VDict []) = VDict pp ->
  lookup pp "flight_id" = Some fid ->
  truthy fid = true ->
  get_item tbl (VDict [("flight_id", fid)]) (store w) = (Returns (VDict resp), s') ->
  lookup resp "Item" = Some item ->
  truthy item = true ->
  dumps item = Returns text ->
  get_flight tbl event w =
  (Returns (response_with_headers 200 (success_body text)),
   World s' (calls w ++ [GetItem (VDict [("flight_id", fid)])])).
Proof.
  intros Hpp Hfid Ht Hget Hitem Hti Hd. rewrite get_flight_run, Hpp.
  cbn [method_get]. unfold dict_get. rewrite Hfid, Ht. cbv zeta.
  rewrite Hget. cbn [fst snd method_get]. unfold dict_get.
  now rewrite Hitem, Hti, Hd.
Qed.

(** Found but not printable: [json.dumps] raises inside the try block and
    the except clause answers 500 with the text of that error. *)
Lemma get_flight_unprintable (event pp resp : dict) (fid item : value)
      (e : exn) (s' : S) (w : world S) :
  dict_get event "pathParameters" (VDict []) = VDict pp ->
  lookup pp "flight_id" = Some fid ->
  truthy fid = true ->
  get_item tbl (VDict [("flight_id", fid)]) (store w) = (Returns (VDict resp), s') ->
  lookup resp "Item" = Some item ->
  truthy item = true ->
  dumps item = Raises e ->
  get_flight tbl event w =
  (Returns (response 500 (error_body (str e))),
   World s' (calls w ++ [GetItem (VDict [("flight_id", fid)])])).
Proof.
  intros Hpp Hfid Ht Hget Hitem Hti Hd. rewrite get_flight_run, Hpp.
  cbn [method_get]. unfold dict_get. rewrite Hfid, Ht. cbv zeta.
  rewrite Hget. cbn [fst snd method_get]. unfold dict_get.
  now rewrite Hitem, Hti, Hd.
Qed.

(** A scan whose items are printable goes out in a 200 response, in the
    order the scan gave. *)
Lemma list_flights_ok (event resp : dict) (items : value) (text : string)
      (s' : S) (w : world S) :
  scan tbl (store w) = (Returns (VDict resp), s') ->
  dict_get resp "Items" (VList []) = items ->
  dumps items = Returns text ->
  list_flights tbl event w =
  (Returns (response_with_headers 200 (success_body text)),
   World s' (calls w ++ [Scan])).
Proof.
  intros Hscan Hitems Hd. rewrite list_flights_run, Hscan.
  cbn [fst snd method_get]. now rewrite Hitems, Hd.
Qed.

Lemma list_flights_unprintable (event resp : dict) (items : value) (e : exn)
      (s' : S) (w : world S) :
  scan tbl (store w) = (Returns (VDict resp), s') ->
  dict_get resp "Items" (VList []) = items ->
  dumps items = Raises e ->
  list_flights tbl event w =
  (Returns (response 500 (error_body (str e))), World s' (calls w ++ [Scan])).
Proof.
  intros Hscan Hitems Hd. rewrite list_flights_run, Hscan.
  cbn [fst snd method_get]. now rewrite Hitems, Hd.
Qed.

End FlightsFacts.

Lemma no_headers (code : Z) (body : string) : headers_of (response code body) = None.
Proof. reflexivity. Qed.

Lemma with_headers (code : Z) (body : string) :
  headers_of (response_with_headers code body) = Some json_headers.
Proof. reflexivity. Qed.

Lemma escape_char_plain (c : ascii) : plain c = true -> escape_char c = String c "".
Proof.
  destruct c as [[] [] [] [] [] [] [] []]; vm_compute; intros H;
    solve [reflexivity | discriminate H].
Qed.

Lemma escape_plain (m : string) :
  forallb plain (list_ascii_of_string m) = true -> escape m = m.
Proof.
  induction m as [|c m IH]; simpl; [reflexivity|].
  intros H. apply andb_prop in H. destruct H as [Hc Hm].
  now rewrite (escape_char_plain c Hc), (IH Hm).
Qed.

(** ** The stub handlers, case by case *)

Section StubFacts.

Variables (event : dict) (context : value) (out : stdout).
Variables (m p text : string).
Hypothesis printable : dumps (VDict event) = Returns text.
Hypothesis method : lookup event "httpMethod" = Some (VStr m).
Hypothesis path : lookup event "path" = Some (VStr p).

Lemma auth_stub :
  Auth.lambda_handler event context out =
  (Returns (response_with_headers 501
              (jq "{'message': 'Auth endpoint not implemented yet', 'received_path': "
                 ++ encode_str p ++ jq ", 'received_method': " ++ encode_str m ++ "}")),
   (out ++ [("Received event: " ++ text)%string])%list).
Proof.
  unfold Auth.lambda_handler, bind, lift, ret, print, subscript.
  rewrite printable, method, path. cbn [dumps].
  generalize (encode_str p) (encode_str m). intros a b.
  unfold response_with_headers. do 4 f_equal.
  now rewrite ?append_nil_r, ?append_assoc.
Qed.

Lemma bookings_stub :
  Bookings.lambda_handler event context out =
  (Returns (response_with_headers 501
              (jq "{'message': 'Bookings endpoint not implemented yet', 'received_path': "
                 ++ encode_str p ++ jq ", 'received_method': " ++ encode_str m
                 ++ jq ", 'note': 'Will handle: create booking, list bookings, cancel booking'}")),
   (out ++ [("Received event: " ++ text)%string])%list).
Proof.
  unfold Bookings.lambda_handler, bind, lift, ret, print, subscript.
  rewrite printable, method, path. cbn [dumps].
  generalize (encode_str p) (encode_str m). intros a b.
  unfold response_with_headers. do 4 f_equal.
  now rewrite ?append_nil_r, ?append_assoc.
Qed.

(** The users stub, for headers that are absent or a mapping [hs]: the
    flag is set when the Authorization value is truthy, or else when the
    authorization value is anything but None. *)
Lemma users_stub (hs : dict) :
  dict_get event "headers" (VDict []) = VDict hs ->
  Users.lambda_handler event context out =
  (Returns (response_with_headers 501
              (jq "{'message': 'Users endpoint not implemented yet', 'received_path': "
                 ++ encode_str p ++ jq ", 'received_method': " ++ encode_str m
                 ++ jq ", 'has_auth_header': "
                 ++ (if truthy (dict_get hs "Authorization" VNone)
                        || Users.is_not_none (dict_get hs "authorization" VNone)
                     then "true" else "false")
                 ++ jq ", 'note': 'Will return user profile based on JWT token'}")),
   (out ++ [("Received event: " ++ text)%string])%list).
Proof.
  intros Hhs.
  unfold Users.lambda_handler, bind, lift, ret, print, subscript.
  rewrite printable, method, path, Hhs. cbn [method_get].
  set (upper := dict_get hs "Authorization" VNone).
  set (lower := dict_get hs "authorization" VNone).
  destruct (truthy upper) eqn:E; cbn [orb].
  - assert (Hu : Users.is_not_none upper = true)
      by (destruct upper; try reflexivity; discriminate E).
    rewrite Hu. cbn [dumps].
    generalize (encode_str p) (encode_str m). intros a b.
    unfold response_with_headers. do 4 f_equal.
    now rewrite ?append_nil_r, ?append_assoc.
  - cbn [dumps].
    generalize (encode_str p) (encode_str m). intros a b.
    unfold response_with_headers. do 4 f_equal.
    destruct (Users.is_not_none lower);
      now rewrite ?append_nil_r, ?append_assoc.
Qed.

End StubFacts.

(** ** The claims *)

Import Flights Doubles.

(** C1, at the record of the handler's own docstring.  The table holds
    FL123 with a numeric price, which boto3 hands back as a Decimal;
    GET /flights/FL123 finds it, [json.dumps] raises TypeError inside the
    try block, and the answer is 500 with that error text and no headers,
    not the 200 response carrying the record.  The router gives the same
    answer. *)
Theorem get_flight_decimal_record :
  let event := get_event "/flights/FL123" "FL123" in
  let w := World [fl456; fl123] [] in
  let answer :=
    (Returns (response 500
                (jq "{'error': 'Object of type Decimal is not JSON serializable'}")),
     World [fl456; fl123] [GetItem (VDict [("flight_id", VStr "FL123")])]) in
  get_item memory_table (VDict [("flight_id", VStr "FL123")]) (store w)
    = (Returns (VDict [("Item", fl123)]), store w)
  /\ get_flight memory_table event w = answer
  /\ lambda_handler memory_table event VNone w = answer.
Proof.
  intros event w answer. split; [reflexivity|]. split; reflexivity.
Qed.

(** C2, at a table holding two records of which one has a numeric price.
    The scan succeeds and returns both; [json.dumps] raises TypeError on
    the Decimal inside the try block, and GET /flights answers 500 with
    that error text instead of 200 with the two records. *)
Theorem list_flights_decimal_record :
  let event := [("httpMethod", VStr "GET"); ("path", VStr "/flights")] in
  let w := World [fl456; fl123] [] in
  let answer :=
    (Returns (response 500
                (jq "{'error': 'Object of type Decimal is not JSON serializable'}")),
     World [fl456; fl123] [Scan]) in
  scan memory_table (store w)
    = (Returns (VDict [("Items", VList [fl456; fl123])]), store w)
  /\ list_flights memory_table event w = answer
  /\ lambda_handler memory_table event VNone w = answer.
Proof.
  intros event w answer. split; [reflexivity|]. split; reflexivity.
Qed.

(** C3, at GET /v1/flights/FL456.  The path is neither /flights nor
    /flights/ followed by a segment, so the route is not one of the two the
    handler documents, yet the router does not answer 404: the test
    '/flights/' in path finds the text inside the path, Get Flight runs,
    reads the table and answers 200 with the record.  The list route next
    to it is tested exactly: GET /v1/flights is answered 404 with the table
    untouched. *)
Theorem router_overmatches_flight_path :
  let w := World [fl456] [] in
  let list_like := [("httpMethod", VStr "GET"); ("path", VStr "/v1/flights")] in
  String.prefix "/flights/" "/v1/flights/FL456" = false
  /\ lambda_handler memory_table (get_event "/v1/flights/FL456" "FL456") VNone w
     = (Returns (response_with_headers 200
                   (jq "{'success': true, 'data': {'flight_id': 'FL456', 'origin': 'BCN', 'destination': 'MAD'}}")),
        World [fl456] [GetItem (VDict [("flight_id", VStr "FL456")])])
  /\ lambda_handler memory_table list_like VNone w
     = (Returns (response 404 (jq "{'error': 'Not found'}")), w).
Proof.
  intros w list_like. split; [reflexivity|]. split; reflexivity.
Qed.

(** X21.  The routing of the flights handler as the code decides it.  For
    a request whose method and path are strings the router answers with
    List Flights exactly when the method is GET and the path is /flights,
    with Get Flight exactly when the method is GET and the text /flights/
    occurs anywhere in the path (at the start or further in, with or
    without a segment after it), and in every other case with 404 and the
    Not found body, leaving the table and the trace of reads untouched. *)
Theorem router_dispatch :
  forall (S : Type) (tbl : table S) (event : dict) (context : value)
         (w : world S) (m p : string),
    lookup event "httpMethod" = Some (VStr m) ->
    lookup event "path" = Some (VStr p) ->
    (m = "GET" /\ p = "/flights" ->
       lambda_handler tbl event context w = list_flights tbl event w)
    /\ (m = "GET" /\ (exists before after, p = before ++ "/flights/" ++ after) ->
       lambda_handler tbl event context w = get_flight tbl event w)
    /\ (~ (m = "GET" /\
           (p = "/flights" \/ exists before after, p = before ++ "/flights/" ++ after)) ->
       lambda_handler tbl event context w =
       (Returns (response 404 (jq "{'error': 'Not found'}")), w)).
Proof.
  intros S tbl event context w m p Hm Hp.
  rewrite (lambda_handler_strings tbl event context w m p Hm Hp).
  repeat split.
  - intros [-> ->]. reflexivity.
  - intros [-> Hin]. apply is_infix_app in Hin. cbn [String.eqb Ascii.eqb Bool.eqb].
    destruct (String.eqb p "/flights") eqn:E.
    + apply String.eqb_eq in E. subst p. discriminate Hin.
    + now rewrite Hin.
  - intros Hnot. destruct (String.eqb m "GET") eqn:Em; [|reflexivity].
    apply String.eqb_eq in Em.
    destruct (String.eqb p "/flights") eqn:Ep.
    + apply String.eqb_eq in Ep. exfalso. apply Hnot. now split; [|left].
    + destruct (is_infix "/flights/" p) eqn:Ei; [|reflexivity].
      exfalso. apply Hnot. split; [exact Em|right]. now apply is_infix_app.
Qed.

Lemma router_dispatch_witness :
  let event := get_event "/flights/FL456" "FL456" in
  let w := World [fl456] [] in
  lookup event "httpMethod" = Some (VStr "GET")
  /\ lookup event "path" = Some (VStr "/flights/FL456")
  /\ lambda_handler memory_table event VNone w = get_flight memory_table event w.
Proof.
  intros event w.
  split; [reflexivity|]. split; [reflexivity|].
  apply (router_dispatch (list value) memory_table event VNone w "GET" "/flights/FL456"
           eq_refl eq_refl).
  split; [reflexivity|]. exists "", "FL456". reflexivity.
Defined.

(** Routing by prefix does not describe the router: GET /v1/flights/FL456
    is neither /flights nor /flights/ followed by a segment, yet the router
    does not answer 404 with the table untouched: it runs Get Flight, which
    reads the table and answers 200. *)
Lemma router_prefix_claim_fails :
  ~ (forall (S : Type) (tbl : table S) (event : dict) (context : value)
            (w : world S) (m p : string),
       lookup event "httpMethod" = Some (VStr m) ->
       lookup event "path" = Some (VStr p) ->
       ~ (m = "GET" /\ p = "/flights") ->
       ~ (m = "GET" /\ exists segment, segment <> "" /\ p = "/flights/" ++ segment) ->
       lambda_handler tbl event context w =
       (Returns (response 404 (jq "{'error': 'Not found'}")), w)).
Proof.
  intros claim.
  specialize (claim (list value) memory_table (get_event "/v1/flights/FL456" "FL456")
                    VNone (World [fl456] []) "GET" "/v1/flights/FL456"
                    eq_refl eq_refl).
  assert (H1 : ~ ("GET" = "GET" /\ "/v1/flights/FL456" = "/flights"))
    by (intros [_ H]; discriminate H).
  assert (H2 : ~ ("GET" = "GET" /\
                  exists segment, segment <> "" /\
                                  "/v1/flights/FL456" = "/flights/" ++ segment))
    by (intros [_ [segment [_ H]]]; discriminate H).
  specialize (claim H1 H2). discriminate claim.
Qed.

(** C4.  When the path-parameter mapping (the event's own, or the empty
    default when the event has none) lacks flight_id or maps it to the
    empty string, Get Flight answers exactly 400 with the Missing flight_id
    body and no headers, and the environment is handed back as it was: the
    table was not read and the trace of reads has not grown.  The router
    passes that answer on. *)
Theorem get_flight_missing_id :
  forall (S : Type) (tbl : table S) (event pp : dict) (w : world S),
    dict_get event "pathParameters" (VDict []) = VDict pp ->
    lookup pp "flight_id" = None \/ lookup pp "flight_id" = Some (VStr "") ->
    get_flight tbl event w =
      (Returns (response 400 (jq "{'error': 'Missing flight_id'}")), w)
    /\ forall (context : value) (p : string),
         lookup event "httpMethod" = Some (VStr "GET") ->
         lookup event "path" = Some (VStr p) ->
         is_infix "/flights/" p = true ->
         lambda_handler tbl event context w =
           (Returns (response 400 (jq "{'error': 'Missing flight_id'}")), w).
Proof.
  intros S tbl event pp w Hpp Hid.
  assert (Hrun : get_flight tbl event w =
                 (Returns (response 400 (jq "{'error': 'Missing flight_id'}")), w)).
  { rewrite get_flight_run, Hpp. cbn [method_get]. unfold dict_get.
    destruct Hid as [-> | ->]; reflexivity. }
  split; [exact Hrun|].
  intros context p Hm Hp Hin.
  rewrite (lambda_handler_strings tbl event context w "GET" p Hm Hp).
  cbn [String.eqb Ascii.eqb Bool.eqb]. rewrite Hin.
  destruct (String.eqb p "/flights") eqn:E; [|exact Hrun].
  apply String.eqb_eq in E. subst p. discriminate Hin.
Qed.

Lemma get_flight_missing_id_witness :
  let event := [("httpMethod", VStr "GET"); ("path", VStr "/flights/");
                ("pathParameters", VDict [("flight_id", VStr "")])] in
  let w := World [fl456] [] in
  dict_get event "pathParameters" (VDict []) = VDict [("flight_id", VStr "")]
  /\ get_flight memory_table event w =
     (Returns (response 400 (jq "{'error': 'Missing flight_id'}")), w).
Proof.
  intros event w. split; [reflexivity|].
  apply (get_flight_missing_id (list value) memory_table event
           [("flight_id", VStr "")] w eq_refl (or_intror eq_refl)).
Defined.

(** C5.  With a truthy (so non-empty) flight_id, when the single-key read
    returns a response that has no Item entry, or None for it, Get Flight
    answers 404 with the Flight not found body, after that one read. *)
Theorem get_flight_not_found :
  forall (S : Type) (tbl : table S) (event pp resp : dict) (fid : value)
         (s' : S) (w : world S),
    dict_get event "pathParameters" (VDict []) = VDict pp ->
    lookup pp "flight_id" = Some fid ->
    truthy fid = true ->
    get_item tbl (VDict [("flight_id", fid)]) (store w) = (Returns (VDict resp), s') ->
    lookup resp "Item" = None \/ lookup resp "Item" = Some VNone ->
    get_flight tbl event w =
    (Returns (response 404 (jq "{'error': 'Flight not found'}")),
     World s' (calls w ++ [GetItem (VDict [("flight_id", fid)])])).
Proof.
  intros S tbl event pp resp fid s' w Hpp Hfid Ht Hget Hitem.
  rewrite get_flight_run, Hpp. cbn [method_get]. unfold dict_get.
  rewrite Hfid, Ht. cbv zeta. rewrite Hget. cbn [fst snd method_get].
  unfold dict_get. destruct Hitem as [-> | ->]; reflexivity.
Qed.

Lemma get_flight_not_found_witness :
  let event := get_event "/flights/FL999" "FL999" in
  let key := VDict [("flight_id", VStr "FL999")] in
  let w := World [fl456] [] in
  get_item memory_table key (store w) = (Returns (VDict []), [fl456])
  /\ get_flight memory_table event w =
     (Returns (response 404 (jq "{'error': 'Flight not found'}")),
      World [fl456] [GetItem key]).
Proof.
  intros event key w. split; [reflexivity|].
  apply (get_flight_not_found (list value) memory_table event
           [("flight_id", VStr "FL999")] [] (VStr "FL999") [fl456] w
           eq_refl eq_refl eq_refl eq_refl (or_introl eq_refl)).
Defined.

(** C6.  When the scan raises an error [e], List Flights answers 500 with
    the body of [json.dumps] on the dict mapping error to [str(e)], and
    when the single-key read raises [e], so does Get Flight; the read is
    not retried, and no invocation of either operation adds more than one
    read to the trace.  A message of printable ASCII characters other than
    the double quote and the backslash stands in the body letter for
    letter. *)
Theorem store_error_500 :
  forall (S : Type) (tbl : table S) (event : dict) (w : world S) (e : exn) (s' : S),
    (scan tbl (store w) = (Raises e, s') ->
       list_flights tbl event w =
       (Returns (response 500 (jq "{'error': " ++ encode_str (str e) ++ "}")),
        World s' (calls w ++ [Scan])))
    /\ (forall (pp : dict) (fid : value),
          dict_get event "pathParameters" (VDict []) = VDict pp ->
          lookup pp "flight_id" = Some fid ->
          truthy fid = true ->
          get_item tbl (VDict [("flight_id", fid)]) (store w) = (Raises e, s') ->
          get_flight tbl event w =
          (Returns (response 500 (jq "{'error': " ++ encode_str (str e) ++ "}")),
           World s' (calls w ++ [GetItem (VDict [("flight_id", fid)])])))
    /\ (forallb plain (list_ascii_of_string (str e)) = true ->
          encode_str (str e) = String dquote (str e ++ String dquote ""))
    /\ calls (snd (list_flights tbl event w)) = (calls w ++ [Scan])%list
    /\ exists cs, calls (snd (get_flight tbl event w)) = (calls w ++ cs)%list
                  /\ (List.length cs <= 1)%nat.
Proof.
  intros S tbl event w e s'. repeat split.
  - intros Hscan. rewrite list_flights_run, Hscan. reflexivity.
  - intros pp fid Hpp Hfid Ht Hget.
    rewrite get_flight_run, Hpp. cbn [method_get]. unfold dict_get.
    rewrite Hfid, Ht. cbv zeta. rewrite Hget. reflexivity.
  - intros Hplain. unfold encode_str. now rewrite escape_plain.
  - destruct (list_flights_returns tbl event w) as [r [s1 [E _]]]. now rewrite E.
  - apply get_flight_calls.
Qed.

Lemma store_error_500_witness :
  let e := Exn "ClientError" "Requested resource not found" in
  let body := jq "{'error': 'Requested resource not found'}" in
  let event := get_event "/flights/FL456" "FL456" in
  let w := World tt [] in
  scan (broken_table e) (store w) = (Raises e, tt)
  /\ list_flights (broken_table e) event w = (Returns (response 500 body), World tt [Scan])
  /\ get_flight (broken_table e) event w =
     (Returns (response 500 body),
      World tt [GetItem (VDict [("flight_id", VStr "FL456")])]).
Proof.
  intros e body event w.
  pose proof (store_error_500 unit (broken_table e) event w e tt) as [Hlist [Hget _]].
  split; [reflexivity|]. split.
  - exact (Hlist eq_refl).
  - exact (Hget [("flight_id", VStr "FL456")] (VStr "FL456")
             eq_refl eq_refl eq_refl eq_refl).
Defined.

(** C7, at four requests.  The router's 404 (PUT /flights), Get Flight's
    400 (no flight_id) and 404 (unknown flight) and the 500 of a failing
    read are dicts of statusCode and body only: they carry no headers
    entry, so neither Content-Type nor Access-Control-Allow-Origin, while
    the 200 answer of the same handler carries both. *)
Theorem error_responses_without_headers :
  let w := World [fl456] [] in
  let failure := Exn "ClientError" "Requested resource not found" in
  let put := [("httpMethod", VStr "PUT"); ("path", VStr "/flights")] in
  let no_id := [("httpMethod", VStr "GET"); ("path", VStr "/flights/");
                ("pathParameters", VDict [])] in
  fst (lambda_handler memory_table put VNone w)
    = Returns (VDict [("statusCode", VInt 404);
                      ("body", VStr (jq "{'error': 'Not found'}"))])
  /\ fst (lambda_handler memory_table no_id VNone w)
    = Returns (VDict [("statusCode", VInt 400);
                      ("body", VStr (jq "{'error': 'Missing flight_id'}"))])
  /\ fst (lambda_handler memory_table (get_event "/flights/FL999" "FL999") VNone w)
    = Returns (VDict [("statusCode", VInt 404);
                      ("body", VStr (jq "{'error': 'Flight not found'}"))])
  /\ fst (lambda_handler (broken_table failure) (get_event "/flights" "") VNone
            (World tt []))
    = Returns (VDict [("statusCode", VInt 500);
                      ("body", VStr (jq "{'error': 'Requested resource not found'}"))])
  /\ (forall code body, headers_of (response code body) = None)
  /\ fst (lambda_handler memory_table (get_event "/flights/FL456" "FL456") VNone w)
    = Returns (VDict [("statusCode", VInt 200);
                      ("headers", VDict [("Content-Type", VStr "application/json");
                                         ("Access-Control-Allow-Origin", VStr "*")]);
                      ("body", VStr (jq "{'success': true, 'data': {'flight_id': 'FL456', 'origin': 'BCN', 'destination': 'MAD'}}"))]).
Proof.
  intros w failure put no_id.
  split; [reflexivity|]. split; [reflexivity|]. split; [reflexivity|].
  split; [reflexivity|]. split; [intros code body|]; reflexivity.
Qed.

(** C8, at a request whose Authorization header is present with an empty
    value.  The users stub answers 501 and echoes path and method, but
    reports has_auth_header false although the Authorization key is in the
    headers; the same empty value under the lower-case key is reported
    true. *)
Theorem users_empty_authorization :
  let request (hs : dict) :=
    [("httpMethod", VStr "GET"); ("path", VStr "/users/me"); ("headers", VDict hs)] in
  let body (flag : string) :=
    jq "{'message': 'Users endpoint not implemented yet', 'received_path': '/users/me', 'received_method': 'GET', 'has_auth_header': "
      ++ flag ++ jq ", 'note': 'Will return user profile based on JWT token'}" in
  lookup [("Authorization", VStr "")] "Authorization" = Some (VStr "")
  /\ fst (Users.lambda_handler (request [("Authorization", VStr "")]) VNone [])
     = Returns (response_with_headers 501 (body "false"))
  /\ fst (Users.lambda_handler (request [("authorization", VStr "")]) VNone [])
     = Returns (response_with_headers 501 (body "true")).
Proof.
  intros request body.
  split; [reflexivity|]. split; reflexivity.
Qed.

(** C9 as stated fails: Get Flight does not return a structured response
    for every request.  On an event whose pathParameters entry is None it
    raises AttributeError and returns nothing. *)
Lemma get_flight_always_returns_fails :
  ~ (forall (S : Type) (tbl : table S) (event : dict) (w : world S),
       exists r w', get_flight tbl event w = (Returns r, w')
                    /\ is_response r = true).
Proof.
  intros claim.
  destruct (claim (list value) memory_table
                  [("httpMethod", VStr "GET"); ("path", VStr "/flights/FL456");
                   ("pathParameters", VNone)]
                  (World [fl456] [])) as [r [w' [E _]]].
  discriminate E.
Qed.

(** C9, as amended.  List Flights returns a structured response for every
    event and every behaviour of the table; Get Flight returns one whenever
    the event's pathParameters entry is absent or a mapping, and whatever
    it returns is a structured response; such a response is a non-empty
    dict, so [x or fallback] is [x] in the router; and no response the
    router returns has status 204. *)
Theorem fallback_204_unreachable :
  forall (S : Type) (tbl : table S) (event : dict) (context : value) (w : world S),
    (exists r w', list_flights tbl event w = (Returns r, w')
                  /\ is_response r = true /\ truthy r = true)
    /\ (lookup event "pathParameters" = None
        \/ (exists pp, lookup event "pathParameters" = Some (VDict pp)) ->
        exists r w', get_flight tbl event w = (Returns r, w'))
    /\ (forall r w', get_flight tbl event w = (Returns r, w') ->
                     is_response r = true /\ truthy r = true)
    /\ (forall fallback,
          bind (list_flights tbl event) (fun r => ret (py_or r fallback)) w
          = list_flights tbl event w)
    /\ (forall fallback,
          bind (get_flight tbl event) (fun r => ret (py_or r fallback)) w
          = get_flight tbl event w)
    /\ (forall r w', lambda_handler tbl event context w = (Returns r, w') ->
                     is_response r = true /\ status r <> Some (VInt 204)).
Proof.
  intros S tbl event context w.
  assert (Hstatus : forall r, operation_status r -> status r <> Some (VInt 204)).
  { unfold operation_status. intros r Hin H. rewrite H in Hin. simpl in Hin.
    repeat (destruct Hin as [Hin|Hin]; [discriminate Hin|]). exact Hin. }
  split; [|split; [|split; [|split; [|split]]]].
  - destruct (list_flights_returns tbl event w) as [r [s' [E Hr]]].
    exists r, (World s' (calls w ++ [Scan])).
    auto using is_response_truthy.
  - apply get_flight_returns.
  - intros r w' E. pose proof (get_flight_response tbl event w w' r E).
    auto using is_response_truthy.
  - intros fallback. apply list_flights_or.
  - intros fallback. apply get_flight_or.
  - intros r w'. rewrite lambda_handler_run.
    destruct (subscript event "httpMethod") as [http_method|e]; [|discriminate].
    destruct (subscript event "path") as [path|e]; [|discriminate].
    assert (H404 : (Returns (response 404 (error_body "Not found")), w) = (Returns r, w') ->
                   is_response r = true /\ status r <> Some (VInt 204))
      by (intros [= <- _]; split; [reflexivity | discriminate]).
    destruct (eq_str http_method "GET"); [|exact H404].
    destruct (eq_str path "/flights").
    + intros E. split.
      * destruct (list_flights_returns tbl event w) as [r0 [s' [E0 Hr]]].
        rewrite E0 in E. now injection E as <- _.
      * exact (Hstatus r (list_flights_status tbl event w w' r E)).
    + destruct (contains "/flights/" path) as [[|]|e]; [|exact H404|discriminate].
      intros E. split.
      * exact (get_flight_response tbl event w w' r E).
      * exact (Hstatus r (get_flight_status tbl event w w' r E)).
Qed.

Lemma fallback_204_unreachable_witness :
  let event := get_event "/flights/FL456" "FL456" in
  let w := World [fl456] [] in
  let r := response_with_headers 200
             (jq "{'success': true, 'data': {'flight_id': 'FL456', 'origin': 'BCN', 'destination': 'MAD'}}") in
  lambda_handler memory_table event VNone w
    = (Returns r, World [fl456] [GetItem (VDict [("flight_id", VStr "FL456")])])
  /\ is_response r = true
  /\ status r <> Some (VInt 204).
Proof.
  intros event w r.
  assert (E : lambda_handler memory_table event VNone w
              = (Returns r, World [fl456] [GetItem (VDict [("flight_id", VStr "FL456")])]))
    by reflexivity.
  split; [exact E|].
  pose proof (fallback_204_unreachable (list value) memory_table event VNone w)
    as [_ [_ [_ [_ [_ Hrouter]]]]].
  exact (Hrouter r _ E).
Defined.

(** C10.  Get Flight returns exactly when the event's pathParameters entry
    is absent or a mapping.  When the entry is present and None, reading
    flight_id off it raises AttributeError before the missing-id check and
    outside the try block: no response is produced, the table is not read,
    and the router, on a GET whose path contains /flights/, lets the
    exception through. *)
Theorem get_flight_null_path_parameters :
  forall (S : Type) (tbl : table S) (event : dict) (w : world S),
    ((exists r w', get_flight tbl event w = (Returns r, w')) <->
     (lookup event "pathParameters" = None
      \/ exists pp, lookup event "pathParameters" = Some (VDict pp)))
    /\ (lookup event "pathParameters" = Some VNone ->
        let error := Exn "AttributeError" "'NoneType' object has no attribute 'get'" in
        get_flight tbl event w = (Raises error, w)
        /\ forall (context : value) (p : string),
             lookup event "httpMethod" = Some (VStr "GET") ->
             lookup event "path" = Some (VStr p) ->
             is_infix "/flights/" p = true ->
             lambda_handler tbl event context w = (Raises error, w)).
Proof.
  intros S tbl event w. split; [split|].
  - intros [r [w' E]]. rewrite get_flight_run in E. unfold dict_get in E.
    destruct (lookup event "pathParameters") as [v|]; [|now left].
    right. destruct v; try discriminate E. now eexists.
  - apply get_flight_returns.
  - intros Hnone error.
    assert (Hrun : get_flight tbl event w = (Raises error, w))
      by (rewrite get_flight_run; unfold dict_get; now rewrite Hnone).
    split; [exact Hrun|].
    intros context p Hm Hp Hin.
    rewrite (lambda_handler_strings tbl event context w "GET" p Hm Hp).
    cbn [String.eqb Ascii.eqb Bool.eqb]. rewrite Hin.
    destruct (String.eqb p "/flights") eqn:E; [|exact Hrun].
    apply String.eqb_eq in E. subst p. discriminate Hin.
Qed.

Lemma get_flight_null_path_parameters_witness :
  let event := [("httpMethod", VStr "GET"); ("path", VStr "/flights/FL456");
                ("pathParameters", VNone)] in
  let w := World [fl456] [] in
  let error := Exn "AttributeError" "'NoneType' object has no attribute 'get'" in
  lookup event "pathParameters" = Some VNone
  /\ get_flight memory_table event w = (Raises error, w)
  /\ lambda_handler memory_table event VNone w = (Raises error, w).
Proof.
  intros event w error.
  pose proof (get_flight_null_path_parameters (list value) memory_table event w)
    as [_ Hnone].
  destruct (Hnone eq_refl) as [Hget Hrouter].
  split; [reflexivity|]. split; [exact Hget|].
  exact (Hrouter VNone "/flights/FL456" eq_refl eq_refl eq_refl).
Defined.

(** ** What json.dumps accepts *)

(** [json.dumps] returns a text on every value decoded from JSON and
    raises its TypeError on every other value. *)
Lemma dumps_spec (v : value) :
  if json_pure v then exists text, dumps v = Returns text
  else exists e, dumps v = Raises e /\ dumps_type_error e.
Proof.
  induction v as [|b|z|s|c e|xs IH|xs IH|kvs IH] using value_nested_ind.
  - now eexists.
  - destruct b; now eexists.
  - now eexists.
  - now eexists.
  - eexists. split; [reflexivity|]. now left.
  - eexists. split; [reflexivity|]. now right.
  - cbn [dumps json_pure].
    match goal with
    | |- context [match ?f true xs with _ => _ end] => set (elements := f)
    end.
    match goal with
    | |- context [if ?g xs then _ else _] => set (all := g)
    end.
    assert (H : forall first,
               if all xs then exists text, elements first xs = Returns text
               else exists e, elements first xs = Raises e /\ dumps_type_error e).
    { induction IH as [|x rest Hx _ IHrest]; intros first; cbn.
      - now eexists.
      - destruct (json_pure x); cbn.
        + destruct Hx as [s ->].
          specialize (IHrest false). fold all in IHrest |- *. fold elements in IHrest |- *.
          destruct (all rest).
          * destruct IHrest as [t ->]. now eexists.
          * destruct IHrest as [e [-> He]]. now eexists.
        + destruct Hx as [e [-> He]]. now eexists. }
    specialize (H true). destruct (all xs).
    + destruct H as [text ->]. now eexists.
    + destruct H as [e [-> He]]. now eexists.
  - cbn [dumps json_pure].
    match goal with
    | |- context [match ?f true kvs with _ => _ end] => set (members := f)
    end.
    match goal with
    | |- context [if ?g kvs then _ else _] => set (all := g)
    end.
    assert (H : forall first,
               if all kvs then exists text, members first kvs = Returns text
               else exists e, members first kvs = Raises e /\ dumps_type_error e).
    { induction IH as [|[k x] rest Hx _ IHrest]; intros first; cbn.
      - now eexists.
      - cbn [snd] in Hx. destruct (json_pure x); cbn.
        + destruct Hx as [s ->].
          specialize (IHrest false). fold all in IHrest |- *. fold members in IHrest |- *.
          destruct (all rest).
          * destruct IHrest as [t ->]. now eexists.
          * destruct IHrest as [e [-> He]]. now eexists.
        + destruct Hx as [e [-> He]]. now eexists. }
    specialize (H true). destruct (all kvs).
    + destruct H as [text ->]. now eexists.
    + destruct H as [e [-> He]]. now eexists.
Qed.

Lemma dumps_pure (v : value) :
  json_pure v = true -> exists text, dumps v = Returns text.
Proof. intros H. pose proof (dumps_spec v) as Hs. now rewrite H in Hs. Qed.

Lemma dumps_impure (v : value) :
  json_pure v = false -> exists e, dumps v = Raises e /\ dumps_type_error e.
Proof. intros H. pose proof (dumps_spec v) as Hs. now rewrite H in Hs. Qed.

(** The values inside a dict decoded from JSON are decoded from JSON. *)
Lemma pure_lookup (d : dict) (k : string) (v : value) :
  json_pure (VDict d) = true -> lookup d k = Some v -> json_pure v = true.
Proof.
  induction d as [|[k' x] rest IH]; cbn; [discriminate|].
  intros Hp Hl. apply andb_prop in Hp. destruct Hp as [Hx Hrest].
  destruct (String.eqb k' k); [now injection Hl as <- | now apply IH].
Qed.

(** A list prints as its elements' texts, in order, between brackets and
    separated by a comma and a space. *)
Lemma dumps_list (xs : list value) (texts : list string) :
  Forall2 (fun x t => dumps x = Returns t) xs texts ->
  dumps (VList xs) = Returns ("[" ++ String.concat ", " texts ++ "]").
Proof.
  intros H. cbn [dumps].
  match goal with
  | |- context [match ?f true xs with _ => _ end] => set (elements := f)
  end.
  assert (E : forall first,
             elements first xs =
             Returns (match texts with
                      | [] => ""
                      | _ :: _ => (if first then "" else ", ") ++ String.concat ", " texts
                      end)).
  { induction H as [|x t xs' ts' Hx _ IH]; intros first; cbn; [reflexivity|].
    rewrite Hx. fold elements. rewrite (IH false).
    destruct ts' as [|t' ts'']; [now rewrite append_nil_r|reflexivity]. }
  rewrite (E true). now destruct texts.
Qed.

(** The elements of a list decoded from JSON all have a text. *)
Lemma pure_list_texts (xs : list value) :
  json_pure (VList xs) = true ->
  exists texts, Forall2 (fun x t => dumps x = Returns t) xs texts.
Proof.
  induction xs as [|x rest IH]; cbn.
  - intros _. now exists [].
  - intros Hp. apply andb_prop in Hp. destruct Hp as [Hx Hrest].
    destruct (dumps_pure x Hx) as [t Ht]. destruct (IH Hrest) as [ts Hts].
    exists (t :: ts). now constructor.
Qed.

(** ** Further properties of the flights handler *)

(** X1.  Get Flight on a record the lookup finds: after the one read, the
    answer is 200 with the headers and the record printed as data when
    the record is made of JSON values only, and 500 with the TypeError
    text of [json.dumps] and no headers otherwise. *)
Theorem get_flight_serves_record :
  forall (S : Type) (tbl : table S) (event pp resp : dict) (fid item : value)
         (s' : S) (w : world S),
    dict_get event "pathParameters" (VDict []) = VDict pp ->
    lookup pp "flight_id" = Some fid ->
    truthy fid = true ->
    get_item tbl (VDict [("flight_id", fid)]) (store w) = (Returns (VDict resp), s') ->
    lookup resp "Item" = Some item ->
    truthy item = true ->
    let w' := World s' (calls w ++ [GetItem (VDict [("flight_id", fid)])]) in
    (json_pure item = true ->
       exists text, dumps item = Returns text
                    /\ get_flight tbl event w =
                       (Returns (response_with_headers 200 (success_body text)), w'))
    /\ (json_pure item = false ->
       exists e, dumps_type_error e
                 /\ get_flight tbl event w =
                    (Returns (response 500 (error_body (str e))), w')).
Proof.
  intros S tbl event pp resp fid item s' w Hpp Hfid Ht Hget Hitem Hti w'. split.
  - intros Hp. destruct (dumps_pure item Hp) as [text Hd]. exists text.
    split; [exact Hd|].
    exact (get_flight_found tbl event pp resp fid item text s' w
             Hpp Hfid Ht Hget Hitem Hti Hd).
  - intros Hp. destruct (dumps_impure item Hp) as [e [Hd He]]. exists e.
    split; [exact He|].
    exact (get_flight_unprintable tbl event pp resp fid item e s' w
             Hpp Hfid Ht Hget Hitem Hti Hd).
Qed.

Lemma get_flight_serves_record_witness :
  let event := get_event "/flights/FL456" "FL456" in
  let w := World [fl123; fl456] [] in
  json_pure fl456 = true
  /\ exists text,
       dumps fl456 = Returns text
       /\ get_flight memory_table event w =
          (Returns (response_with_headers 200 (success_body text)),
           World [fl123; fl456] [GetItem (VDict [("flight_id", VStr "FL456")])]).
Proof.
  intros event w. split; [reflexivity|].
  exact (proj1 (get_flight_serves_record (list value) memory_table event
                  [("flight_id", VStr "FL456")] [("Item", fl456)] (VStr "FL456")
                  fl456 [fl123; fl456] w
                  eq_refl eq_refl eq_refl eq_refl eq_refl eq_refl) eq_refl).
Defined.

(** X2.  List Flights on a scan that returns a list of records made of
    JSON values only: the answer is 200 with the headers, and data is the
    bracketed, comma-separated sequence of the records' texts, one per
    record and in the order of the scan. *)
Theorem list_flights_serves_scan :
  forall (S : Type) (tbl : table S) (event resp : dict) (records : list value)
         (s' : S) (w : world S),
    scan tbl (store w) = (Returns (VDict resp), s') ->
    lookup resp "Items" = Some (VList records) ->
    json_pure (VList records) = true ->
    exists texts,
      Forall2 (fun r t => dumps r = Returns t) records texts
      /\ list_flights tbl event w =
         (Returns (response_with_headers 200
                     (success_body ("[" ++ String.concat ", " texts ++ "]"))),
          World s' (calls w ++ [Scan])).
Proof.
  intros S tbl event resp records s' w Hscan Hitems Hp.
  destruct (pure_list_texts records Hp) as [texts Hts]. exists texts.
  split; [exact Hts|].
  apply (list_flights_ok tbl event resp (VList records) _ s' w Hscan).
  - unfold dict_get. now rewrite Hitems.
  - now apply dumps_list.
Qed.

Lemma list_flights_serves_scan_witness :
  let event := [("httpMethod", VStr "GET"); ("path", VStr "/flights")] in
  let w := World [fl456; fl456] [] in
  exists texts,
    Forall2 (fun r t => dumps r = Returns t) [fl456; fl456] texts
    /\ list_flights memory_table event w =
       (Returns (response_with_headers 200
                   (success_body ("[" ++ String.concat ", " texts ++ "]"))),
        World [fl456; fl456] [Scan]).
Proof.
  intros event w.
  exact (list_flights_serves_scan (list value) memory_table event
           [("Items", VList [fl456; fl456])] [fl456; fl456] [fl456; fl456] w
           eq_refl eq_refl eq_refl).
Defined.

(** X3.  A scan response that has no Items entry is served as the empty
    list: 200 with data []. *)
Theorem list_flights_without_items :
  forall (S : Type) (tbl : table S) (event resp : dict) (s' : S) (w : world S),
    scan tbl (store w) = (Returns (VDict resp), s') ->
    lookup resp "Items" = None ->
    list_flights tbl event w =
    (Returns (response_with_headers 200 (jq "{'success': true, 'data': []}")),
     World s' (calls w ++ [Scan])).
Proof.
  intros S tbl event resp s' w Hscan Hitems.
  apply (list_flights_ok tbl event resp (VList []) "[]" s' w Hscan).
  - unfold dict_get. now rewrite Hitems.
  - reflexivity.
Qed.

Lemma list_flights_without_items_witness :
  let tbl := Table (fun s : unit => (Returns (VDict [("Count", VInt 0)]), s))
                   (fun _ s => (Returns (VDict []), s)) in
  list_flights tbl [] (World tt []) =
  (Returns (response_with_headers 200 (jq "{'success': true, 'data': []}")),
   World tt [Scan]).
Proof.
  intros tbl.
  exact (list_flights_without_items unit tbl [] [("Count", VInt 0)] tt (World tt [])
           eq_refl eq_refl).
Defined.

(** X4.  The id check of Get Flight decides whether the table is read.
    With a path-parameter mapping, a falsy flight_id (missing, empty, None,
    zero, an empty list or dict) gives 400 and leaves the environment as it
    was; a truthy one leads to exactly one read, with the key mapping
    flight_id to that value, and to a returned response of status 200, 404
    or 500: past the check nothing is raised. *)
Theorem get_flight_id_check :
  forall (S : Type) (tbl : table S) (event pp : dict) (w : world S),
    dict_get event "pathParameters" (VDict []) = VDict pp ->
    let fid := dict_get pp "flight_id" (VStr "") in
    (truthy fid = false ->
       get_flight tbl event w =
       (Returns (response 400 (jq "{'error': 'Missing flight_id'}")), w))
    /\ (truthy fid = true ->
        exists r s',
          get_flight tbl event w =
          (Returns r, World s' (calls w ++ [GetItem (VDict [("flight_id", fid)])]))
          /\ In (status r) [Some (VInt 200); Some (VInt 404); Some (VInt 500)]).
Proof.
  intros S tbl event pp w Hpp fid.
  rewrite get_flight_run, Hpp. cbn [method_get]. fold fid. cbv zeta.
  unfold answer_500. split; intros Ht; rewrite Ht; [reflexivity|].
  destruct (get_item tbl _ (store w)) as [[resp|e] s']; cbn [fst snd].
  - destruct (method_get resp "Item" VNone) as [item|e].
    + destruct (truthy item).
      * destruct (dumps item) as [text|e]; do 2 eexists;
          (split; [reflexivity | simpl; tauto]).
      * do 2 eexists. split; [reflexivity | simpl; tauto].
    + do 2 eexists. split; [reflexivity | simpl; tauto].
  - do 2 eexists. split; [reflexivity | simpl; tauto].
Qed.

Lemma get_flight_id_check_witness :
  let event := [("pathParameters", VDict [("flight_id", VNone)])] in
  let w := World [fl456] [] in
  dict_get event "pathParameters" (VDict []) = VDict [("flight_id", VNone)]
  /\ get_flight memory_table event w =
     (Returns (response 400 (jq "{'error': 'Missing flight_id'}")), w).
Proof.
  intros event w. split; [reflexivity|].
  exact (proj1 (get_flight_id_check (list value) memory_table event
                  [("flight_id", VNone)] w eq_refl) eq_refl).
Defined.

(** X5.  An Item that is present but falsy, such as an empty dict, is
    treated as no item: Get Flight answers 404 Flight not found. *)
Theorem get_flight_falsy_item :
  forall (S : Type) (tbl : table S) (event pp resp : dict) (fid item : value)
         (s' : S) (w : world S),
    dict_get event "pathParameters" (VDict []) = VDict pp ->
    lookup pp "flight_id" = Some fid ->
    truthy fid = true ->
    get_item tbl (VDict [("flight_id", fid)]) (store w) = (Returns (VDict resp), s') ->
    lookup resp "Item" = Some item ->
    truthy item = false ->
    get_flight tbl event w =
    (Returns (response 404 (jq "{'error': 'Flight not found'}")),
     World s' (calls w ++ [GetItem (VDict [("flight_id", fid)])])).
Proof.
  intros S tbl event pp resp fid item s' w Hpp Hfid Ht Hget Hitem Hti.
  rewrite get_flight_run, Hpp. cbn [method_get]. unfold dict_get.
  rewrite Hfid, Ht. cbv zeta. rewrite Hget. cbn [fst snd method_get].
  unfold dict_get. now rewrite Hitem, Hti.
Qed.

Lemma get_flight_falsy_item_witness :
  let tbl := Table (fun s : unit => (Returns (VDict []), s))
                   (fun _ s => (Returns (VDict [("Item", VDict [])]), s)) in
  let event := get_event "/flights/FL456" "FL456" in
  get_flight tbl event (World tt []) =
  (Returns (response 404 (jq "{'error': 'Flight not found'}")),
   World tt [GetItem (VDict [("flight_id", VStr "FL456")])]).
Proof.
  intros tbl event.
  exact (get_flight_falsy_item unit tbl event [("flight_id", VStr "FL456")]
           [("Item", VDict [])] (VStr "FL456") (VDict []) tt (World tt [])
           eq_refl eq_refl eq_refl eq_refl eq_refl eq_refl).
Defined.

(** X6.  The router reads httpMethod and then path before it looks at
    either: an event without httpMethod raises KeyError for httpMethod, and
    an event with a method of any kind but without path raises KeyError for
    path, so a non-GET request without a path is not answered 404.  The
    table is not read. *)
Theorem router_missing_key :
  forall (S : Type) (tbl : table S) (event : dict) (context : value) (w : world S),
    (lookup event "httpMethod" = None ->
       lambda_handler tbl event context w = (Raises (Exn "KeyError" "'httpMethod'"), w))
    /\ (forall m, lookup event "httpMethod" = Some m ->
                  lookup event "path" = None ->
                  lambda_handler tbl event context w = (Raises (Exn "KeyError" "'path'"), w)).
Proof.
  intros S tbl event context w. split.
  - intros Hm. rewrite lambda_handler_run. unfold subscript. now rewrite Hm.
  - intros m Hm Hp. rewrite lambda_handler_run. unfold subscript. now rewrite Hm, Hp.
Qed.

Lemma router_missing_key_witness :
  let w := World [fl456] [] in
  lambda_handler memory_table [("path", VStr "/flights")] VNone w
    = (Raises (Exn "KeyError" "'httpMethod'"), w)
  /\ lambda_handler memory_table [("httpMethod", VStr "PUT")] VNone w
    = (Raises (Exn "KeyError" "'path'"), w).
Proof.
  intros w. split.
  - exact (proj1 (router_missing_key (list value) memory_table
                    [("path", VStr "/flights")] VNone w) eq_refl).
  - exact (proj2 (router_missing_key (list value) memory_table
                    [("httpMethod", VStr "PUT")] VNone w) (VStr "PUT") eq_refl eq_refl).
Defined.

(** X7.  Whatever the event and the table, one invocation of the router
    adds to the trace nothing, one scan, or one single-key read whose key
    has the one entry flight_id; and when the method is not the string GET
    the environment comes back exactly as it was. *)
Theorem router_reads :
  forall (S : Type) (tbl : table S) (event : dict) (context : value) (w : world S),
    (exists cs,
        calls (snd (lambda_handler tbl event context w)) = (calls w ++ cs)%list
        /\ (cs = [] \/ cs = [Scan]
            \/ exists fid, cs = [GetItem (VDict [("flight_id", fid)])]))
    /\ (lookup event "httpMethod" <> Some (VStr "GET") ->
        snd (lambda_handler tbl event context w) = w).
Proof.
  intros S tbl event context w.
  assert (Hnone : exists cs,
             calls w = (calls w ++ cs)%list
             /\ (cs = [] \/ cs = [Scan]
                 \/ exists fid, cs = [GetItem (VDict [("flight_id", fid)])]))
    by (exists []; rewrite app_nil_r; auto).
  rewrite lambda_handler_run. unfold subscript.
  destruct (lookup event "httpMethod") as [http_method|]; [|split; auto].
  destruct (lookup event "path") as [path|]; [|split; auto].
  destruct (eq_str http_method "GET") eqn:Em; [|split; auto].
  split.
  - destruct (eq_str path "/flights").
    + exists [Scan]. split; [|auto].
      destruct (list_flights_returns tbl event w) as [r [s' [E _]]]. now rewrite E.
    + destruct (contains "/flights/" path) as [[|]|e]; [|exact Hnone|exact Hnone].
      rewrite get_flight_run. cbv zeta. unfold answer_500.
      destruct (method_get _ "flight_id" _) as [fid|e]; [|exact Hnone].
      destruct (truthy fid); [|exact Hnone].
      exists [GetItem (VDict [("flight_id", fid)])]. split; [|eauto].
      destruct (fst (get_item tbl _ (store w))) as [resp|e]; [|reflexivity].
      destruct (method_get resp "Item" VNone) as [item|e]; [|reflexivity].
      destruct (truthy item); [|reflexivity].
      destruct (dumps item); reflexivity.
  - intros Hne. exfalso. apply Hne.
    destruct http_method; try discriminate Em.
    cbn in Em. apply String.eqb_eq in Em. now subst.
Qed.

Lemma router_reads_witness :
  let event := [("httpMethod", VStr "DELETE"); ("path", VStr "/flights/FL456");
                ("pathParameters", VDict [("flight_id", VStr "FL456")])] in
  let w := World [fl456] [] in
  lookup event "httpMethod" <> Some (VStr "GET")
  /\ snd (lambda_handler memory_table event VNone w) = w.
Proof.
  intros event w.
  assert (Hne : lookup event "httpMethod" <> Some (VStr "GET")) by discriminate.
  split; [exact Hne|].
  exact (proj2 (router_reads (list value) memory_table event VNone w) Hne).
Defined.

(** X8.  Every response the router returns is a dict of statusCode and
    body, with headers in between when the status is 200: the status is
    200, 400, 404 or 500, the body is a string, and a 200 response carries
    exactly the Content-Type and Access-Control-Allow-Origin headers. *)
Theorem router_response_shape :
  forall (S : Type) (tbl : table S) (event : dict) (context : value)
         (w w' : world S) (r : value),
    lambda_handler tbl event context w = (Returns r, w') ->
    (exists body, r = response_with_headers 200 body)
    \/ (exists code body, r = response code body /\ In code [400; 404; 500]).
Proof.
  intros S tbl event context w w' r. rewrite lambda_handler_run.
  destruct (subscript event "httpMethod") as [http_method|e]; [|discriminate].
  destruct (subscript event "path") as [path|e]; [|discriminate].
  assert (H404 : (Returns (response 404 (error_body "Not found")), w) = (Returns r, w') ->
                 (exists body, r = response_with_headers 200 body)
                 \/ (exists code body, r = response code body /\ In code [400; 404; 500]))
    by (intros [= <- _]; right; do 2 eexists; split; [reflexivity | simpl; tauto]).
  destruct (eq_str http_method "GET"); [|exact H404].
  destruct (eq_str path "/flights").
  - rewrite list_flights_run. cbv zeta. unfold answer_500.
    destruct (fst (scan tbl (store w))) as [resp|e].
    + destruct (method_get resp "Items" (VList [])) as [items|e].
      * destruct (dumps items) as [text|e]; intros [= <- _].
        -- left. now eexists.
        -- right. do 2 eexists. split; [reflexivity | simpl; tauto].
      * intros [= <- _]. right. do 2 eexists. split; [reflexivity | simpl; tauto].
    + intros [= <- _]. right. do 2 eexists. split; [reflexivity | simpl; tauto].
  - destruct (contains "/flights/" path) as [[|]|e]; [|exact H404|discriminate].
    rewrite get_flight_run. cbv zeta. unfold answer_500.
    destruct (method_get _ "flight_id" _) as [fid|e]; [|discriminate].
    destruct (truthy fid);
      [|intros [= <- _]; right; do 2 eexists; split; [reflexivity | simpl; tauto]].
    destruct (fst (get_item tbl _ (store w))) as [resp|e];
      [|intros [= <- _]; right; do 2 eexists; split; [reflexivity | simpl; tauto]].
    destruct (method_get resp "Item" VNone) as [item|e];
      [|intros [= <- _]; right; do 2 eexists; split; [reflexivity | simpl; tauto]].
    destruct (truthy item);
      [|intros [= <- _]; right; do 2 eexists; split; [reflexivity | simpl; tauto]].
    destruct (dumps item) as [text|e]; intros [= <- _].
    + left. now eexists.
    + right. do 2 eexists. split; [reflexivity | simpl; tauto].
Qed.

Lemma router_response_shape_witness :
  let event := get_event "/flights/FL999" "FL999" in
  let w := World [fl456] [] in
  exists r w',
    lambda_handler memory_table event VNone w = (Returns r, w')
    /\ ((exists body, r = response_with_headers 200 body)
        \/ (exists code body, r = response code body /\ In code [400; 404; 500])).
Proof.
  intros event w.
  exists (response 404 (jq "{'error': 'Flight not found'}")).
  exists (World [fl456] [GetItem (VDict [("flight_id", VStr "FL999")])]).
  split; [reflexivity|].
  exact (router_response_shape (list value) memory_table event VNone w _ _ eq_refl).
Defined.

(** X9.  On a GET whose path is neither a string nor a container (None, a
    boolean, a number), the path is not /flights and the membership test
    that follows raises TypeError: the router raises, and the table is not
    read. *)
Theorem router_path_not_container :
  forall (S : Type) (tbl : table S) (event : dict) (context : value)
         (w : world S) (path : value),
    lookup event "httpMethod" = Some (VStr "GET") ->
    lookup event "path" = Some path ->
    In (type_name path) ["NoneType"; "bool"; "int"; "Decimal"] ->
    exists e, lambda_handler tbl event context w = (Raises e, w)
              /\ exn_class e = "TypeError".
Proof.
  intros S tbl event context w path Hm Hp Hty.
  rewrite lambda_handler_run. unfold subscript. rewrite Hm, Hp.
  cbn [eq_str String.eqb Ascii.eqb Bool.eqb].
  destruct path; cbn in Hty |- *;
    try (eexists; split; reflexivity);
    repeat (destruct Hty as [Hty|Hty]; [discriminate Hty|]); contradiction.
Qed.

Lemma router_path_not_container_witness :
  let event := [("httpMethod", VStr "GET"); ("path", VNone)] in
  let w := World [fl456] [] in
  exists e, lambda_handler memory_table event VNone w = (Raises e, w)
            /\ exn_class e = "TypeError".
Proof.
  intros event w.
  exact (router_path_not_container (list value) memory_table event VNone w VNone
           eq_refl eq_refl (or_introl eq_refl)).
Defined.

(** X10.  The flight that is looked up is the one the path parameters
    name; the text of the path only decides the routing.  Two GET requests
    whose paths both contain /flights/ and whose pathParameters entries
    agree get the same answer and cause the same read, whatever ids their
    paths spell. *)
Theorem router_ignores_path_text :
  forall (S : Type) (tbl : table S) (event1 event2 : dict) (context : value)
         (w : world S) (p1 p2 : string),
    lookup event1 "httpMethod" = Some (VStr "GET") ->
    lookup event2 "httpMethod" = Some (VStr "GET") ->
    lookup event1 "path" = Some (VStr p1) ->
    lookup event2 "path" = Some (VStr p2) ->
    is_infix "/flights/" p1 = true ->
    is_infix "/flights/" p2 = true ->
    lookup event1 "pathParameters" = lookup event2 "pathParameters" ->
    lambda_handler tbl event1 context w = lambda_handler tbl event2 context w.
Proof.
  intros S tbl event1 event2 context w p1 p2 Hm1 Hm2 Hp1 Hp2 Hi1 Hi2 Hpp.
  assert (Hne : forall p, is_infix "/flights/" p = true -> String.eqb p "/flights" = false).
  { intros p Hi. destruct (String.eqb p "/flights") eqn:E; [|reflexivity].
    apply String.eqb_eq in E. subst p. discriminate Hi. }
  rewrite (lambda_handler_strings tbl event1 context w "GET" p1 Hm1 Hp1).
  rewrite (lambda_handler_strings tbl event2 context w "GET" p2 Hm2 Hp2).
  cbn [String.eqb Ascii.eqb Bool.eqb].
  rewrite (Hne p1 Hi1), (Hne p2 Hi2), Hi1, Hi2.
  rewrite !get_flight_run. unfold dict_get. now rewrite Hpp.
Qed.

Lemma router_ignores_path_text_witness :
  let w := World [fl456] [] in
  lambda_handler memory_table (get_event "/flights/FL456" "FL456") VNone w
  = lambda_handler memory_table (get_event "/v1/flights/other" "FL456") VNone w.
Proof.
  intros w.
  exact (router_ignores_path_text (list value) memory_table
           (get_event "/flights/FL456" "FL456")
           (get_event "/v1/flights/other" "FL456") VNone w
           "/flights/FL456" "/v1/flights/other"
           eq_refl eq_refl eq_refl eq_refl eq_refl eq_refl eq_refl).
Defined.

(** ** Further properties of the stub handlers *)

(** A stub up to the point where it has printed the event and read the
    method and the path. *)
Lemma stub_prelude (event : dict) (hm pa : value) :
  json_pure (VDict event) = true ->
  lookup event "httpMethod" = Some hm ->
  lookup event "path" = Some pa ->
  exists te tm tp,
    dumps (VDict event) = Returns te /\ dumps hm = Returns tm /\ dumps pa = Returns tp.
Proof.
  intros Hp Hm Hpa.
  destruct (dumps_pure _ Hp) as [te Hte].
  destruct (dumps_pure _ (pure_lookup event _ hm Hp Hm)) as [tm Htm].
  destruct (dumps_pure _ (pure_lookup event _ pa Hp Hpa)) as [tp Htp].
  now exists te, tm, tp.
Qed.

(** X11.  The auth stub on an event decoded from JSON that has httpMethod
    and path: it prints one line, the event as JSON, and answers 501 with
    the headers and a body that echoes the path and the method as
    [json.dumps] prints them. *)
Theorem auth_stub_answers :
  forall (event : dict) (context hm pa : value) (out : stdout),
    json_pure (VDict event) = true ->
    lookup event "httpMethod" = Some hm ->
    lookup event "path" = Some pa ->
    exists te tm tp,
      dumps (VDict event) = Returns te /\ dumps hm = Returns tm
      /\ dumps pa = Returns tp
      /\ Auth.lambda_handler event context out =
         (Returns (response_with_headers 501 (auth_body tp tm)),
          (out ++ [log_line te])%list).
Proof.
  intros event context hm pa out Hp Hm Hpa.
  destruct (stub_prelude event hm pa Hp Hm Hpa) as [te [tm [tp [Hte [Htm Htp]]]]].
  exists te, tm, tp. repeat (split; [assumption|]).
  unfold Auth.lambda_handler, bind, lift, ret, print, subscript.
  rewrite Hte, Hm, Hpa. cbn [dumps]. rewrite Htp, Htm.
  unfold response_with_headers, auth_body, log_line. do 4 f_equal.
  now rewrite ?append_nil_r, ?append_assoc.
Qed.

Lemma auth_stub_answers_witness :
  let event := [("httpMethod", VStr "POST"); ("path", VStr "/auth/login");
                ("body", VStr "{}")] in
  exists te tm tp,
    dumps (VDict event) = Returns te /\ dumps (VStr "POST") = Returns tm
    /\ dumps (VStr "/auth/login") = Returns tp
    /\ Auth.lambda_handler event VNone [] =
       (Returns (response_with_headers 501 (auth_body tp tm)), [log_line te]).
Proof.
  intros event.
  exact (auth_stub_answers event VNone (VStr "POST") (VStr "/auth/login") []
           eq_refl eq_refl eq_refl).
Defined.

(** X12.  The bookings stub on an event decoded from JSON that has
    httpMethod and path: one printed line, and 501 with the headers and a
    body that echoes the path and the method, whatever the method. *)
Theorem bookings_stub_answers :
  forall (event : dict) (context hm pa : value) (out : stdout),
    json_pure (VDict event) = true ->
    lookup event "httpMethod" = Some hm ->
    lookup event "path" = Some pa ->
    exists te tm tp,
      dumps (VDict event) = Returns te /\ dumps hm = Returns tm
      /\ dumps pa = Returns tp
      /\ Bookings.lambda_handler event context out =
         (Returns (response_with_headers 501 (bookings_body tp tm)),
          (out ++ [log_line te])%list).
Proof.
  intros event context hm pa out Hp Hm Hpa.
  destruct (stub_prelude event hm pa Hp Hm Hpa) as [te [tm [tp [Hte [Htm Htp]]]]].
  exists te, tm, tp. repeat (split; [assumption|]).
  unfold Bookings.lambda_handler, bind, lift, ret, print, subscript.
  rewrite Hte, Hm, Hpa. cbn [dumps]. rewrite Htp, Htm.
  unfold response_with_headers, bookings_body, log_line. do 4 f_equal.
  now rewrite ?append_nil_r, ?append_assoc.
Qed.

Lemma bookings_stub_answers_witness :
  let event := [("httpMethod", VStr "DELETE"); ("path", VStr "/bookings/42")] in
  exists te tm tp,
    dumps (VDict event) = Returns te /\ dumps (VStr "DELETE") = Returns tm
    /\ dumps (VStr "/bookings/42") = Returns tp
    /\ Bookings.lambda_handler event VNone [] =
       (Returns (response_with_headers 501 (bookings_body tp tm)), [log_line te]).
Proof.
  intros event.
  exact (bookings_stub_answers event VNone (VStr "DELETE") (VStr "/bookings/42") []
           eq_refl eq_refl eq_refl).
Defined.

(** X13.  The users stub on an event decoded from JSON that has httpMethod
    and path and whose headers entry is absent or a mapping: one printed
    line, and 501 with the headers and a body that echoes the path and the
    method and reports has_auth_header as true when the Authorization value
    is truthy, or else when the authorization value is anything but None. *)
Theorem users_stub_answers :
  forall (event hs : dict) (context hm pa : value) (out : stdout),
    json_pure (VDict event) = true ->
    lookup event "httpMethod" = Some hm ->
    lookup event "path" = Some pa ->
    dict_get event "headers" (VDict []) = VDict hs ->
    exists te tm tp,
      dumps (VDict event) = Returns te /\ dumps hm = Returns tm
      /\ dumps pa = Returns tp
      /\ Users.lambda_handler event context out =
         (Returns (response_with_headers 501
                     (users_body tp tm
                        (truthy (dict_get hs "Authorization" VNone)
                         || Users.is_not_none (dict_get hs "authorization" VNone)))),
          (out ++ [log_line te])%list).
Proof.
  intros event hs context hm pa out Hp Hm Hpa Hhs.
  destruct (stub_prelude event hm pa Hp Hm Hpa) as [te [tm [tp [Hte [Htm Htp]]]]].
  exists te, tm, tp. repeat (split; [assumption|]).
  unfold Users.lambda_handler, bind, lift, ret, print, subscript.
  rewrite Hte, Hm, Hpa, Hhs. cbn [method_get].
  set (upper := dict_get hs "Authorization" VNone).
  set (lower := dict_get hs "authorization" VNone).
  unfold response_with_headers, users_body, log_line.
  destruct (truthy upper) eqn:E; cbn [orb].
  - assert (Hu : Users.is_not_none upper = true)
      by (destruct upper; try reflexivity; discriminate E).
    rewrite Hu. cbn [dumps]. rewrite Htp, Htm. do 4 f_equal.
    now rewrite ?append_nil_r, ?append_assoc.
  - cbn [dumps]. rewrite Htp, Htm. do 4 f_equal.
    destruct (Users.is_not_none lower);
      now rewrite ?append_nil_r, ?append_assoc.
Qed.

Lemma users_stub_answers_witness :
  let event := [("httpMethod", VStr "GET"); ("path", VStr "/users/me");
                ("headers", VDict [("authorization", VStr "Bearer abc")])] in
  exists te tm tp,
    dumps (VDict event) = Returns te /\ dumps (VStr "GET") = Returns tm
    /\ dumps (VStr "/users/me") = Returns tp
    /\ Users.lambda_handler event VNone [] =
       (Returns (response_with_headers 501 (users_body tp tm true)), [log_line te]).
Proof.
  intros event.
  exact (users_stub_answers event [("authorization", VStr "Bearer abc")] VNone
           (VStr "GET") (VStr "/users/me") [] eq_refl eq_refl eq_refl eq_refl).
Defined.

(** X14.  The users stub on the usual headers: has_auth_header is false
    when the headers have neither an Authorization nor an authorization
    key, and true when either of the two keys maps to a non-empty
    string. *)
Theorem users_flag_usual_headers :
  forall (event hs : dict) (context : value) (m p : string) (out : stdout),
    json_pure (VDict event) = true ->
    lookup event "httpMethod" = Some (VStr m) ->
    lookup event "path" = Some (VStr p) ->
    dict_get event "headers" (VDict []) = VDict hs ->
    exists te,
      dumps (VDict event) = Returns te
      /\ (lookup hs "Authorization" = None ->
          lookup hs "authorization" = None ->
          Users.lambda_handler event context out =
          (Returns (response_with_headers 501
                      (users_body (encode_str p) (encode_str m) false)),
           (out ++ [log_line te])%list))
      /\ (forall s,
            s <> "" ->
            lookup hs "Authorization" = Some (VStr s)
            \/ lookup hs "authorization" = Some (VStr s) ->
            Users.lambda_handler event context out =
            (Returns (response_with_headers 501
                        (users_body (encode_str p) (encode_str m) true)),
             (out ++ [log_line te])%list)).
Proof.
  intros event hs context m p out Hp Hm Hpa Hhs.
  destruct (dumps_pure _ Hp) as [te Hte]. exists te. split; [exact Hte|].
  pose proof (users_stub event context out m p te Hte Hm Hpa hs Hhs) as Hrun.
  split.
  - intros Hu Hl. rewrite Hrun. unfold dict_get. now rewrite Hu, Hl.
  - intros s Hs [Hu|Hl]; rewrite Hrun; unfold dict_get.
    + rewrite Hu. cbn [truthy].
      destruct (String.eqb s "") eqn:E; [|reflexivity].
      apply String.eqb_eq in E. contradiction.
    + rewrite Hl. cbn [Users.is_not_none]. now rewrite orb_true_r.
Qed.

Lemma users_flag_usual_headers_witness :
  let event := [("httpMethod", VStr "GET"); ("path", VStr "/users/me");
                ("headers", VDict [("Authorization", VStr "Bearer abc")])] in
  exists te,
    dumps (VDict event) = Returns te
    /\ Users.lambda_handler event VNone [] =
       (Returns (response_with_headers 501
                   (users_body (encode_str "/users/me") (encode_str "GET") true)),
        [log_line te]).
Proof.
  intros event.
  destruct (users_flag_usual_headers event [("Authorization", VStr "Bearer abc")]
              VNone "GET" "/users/me" [] eq_refl eq_refl eq_refl eq_refl)
    as [te [Hte [_ Htrue]]].
  exists te. split; [exact Hte|].
  apply (Htrue "Bearer abc"); [discriminate | left; reflexivity].
Defined.

(** X15.  The empty default of the users stub applies only when the event
    has no headers entry.  When the entry is present and not a mapping
    (None, for one), the stub prints the event and then raises
    AttributeError: no response is produced. *)
Theorem users_headers_not_mapping :
  forall (event : dict) (context hm pa h : value) (out : stdout),
    json_pure (VDict event) = true ->
    lookup event "httpMethod" = Some hm ->
    lookup event "path" = Some pa ->
    lookup event "headers" = Some h ->
    type_name h <> "dict" ->
    exists te,
      dumps (VDict event) = Returns te
      /\ Users.lambda_handler event context out =
         (Raises (Exn "AttributeError"
                      ("'" ++ type_name h ++ "' object has no attribute 'get'")),
          (out ++ [log_line te])%list).
Proof.
  intros event context hm pa h out Hp Hm Hpa Hh Hty.
  destruct (dumps_pure _ Hp) as [te Hte]. exists te. split; [exact Hte|].
  unfold Users.lambda_handler, bind, lift, ret, print, subscript, dict_get.
  rewrite Hte, Hm, Hpa, Hh.
  pose proof (pure_lookup event "headers" h Hp Hh) as Hpure.
  destruct h; try reflexivity; try discriminate Hpure. now contradiction Hty.
Qed.

Lemma users_headers_not_mapping_witness :
  let event := [("httpMethod", VStr "GET"); ("path", VStr "/users/me");
                ("headers", VNone)] in
  exists te,
    dumps (VDict event) = Returns te
    /\ Users.lambda_handler event VNone [] =
       (Raises (Exn "AttributeError" "'NoneType' object has no attribute 'get'"),
        [log_line te]).
Proof.
  intros event.
  assert (Hty : type_name VNone <> "dict") by discriminate.
  exact (users_headers_not_mapping event VNone (VStr "GET") (VStr "/users/me")
           VNone [] eq_refl eq_refl eq_refl eq_refl Hty).
Defined.

(** X16.  The stubs print the event before they read anything off it.  On
    an event decoded from JSON that lacks httpMethod, each of the three
    prints its line and then raises KeyError for httpMethod; when the
    method is there and path is missing, each raises KeyError for path,
    again after the line was printed. *)
Theorem stubs_missing_key :
  forall (event : dict) (context : value) (out : stdout),
    json_pure (VDict event) = true ->
    exists te,
      dumps (VDict event) = Returns te
      /\ (lookup event "httpMethod" = None ->
          let raised := (@Raises value (Exn "KeyError" "'httpMethod'"),
                         (out ++ [log_line te])%list) in
          Auth.lambda_handler event context out = raised
          /\ Bookings.lambda_handler event context out = raised
          /\ Users.lambda_handler event context out = raised)
      /\ (forall hm,
            lookup event "httpMethod" = Some hm ->
            lookup event "path" = None ->
            let raised := (@Raises value (Exn "KeyError" "'path'"),
                           (out ++ [log_line te])%list) in
            Auth.lambda_handler event context out = raised
            /\ Bookings.lambda_handler event context out = raised
            /\ Users.lambda_handler event context out = raised).
Proof.
  intros event context out Hp.
  destruct (dumps_pure _ Hp) as [te Hte]. exists te. split; [exact Hte|].
  split.
  - intros Hm raised.
    unfold Auth.lambda_handler, Bookings.lambda_handler, Users.lambda_handler,
      bind, lift, ret, print, subscript.
    rewrite Hte, Hm. now repeat split.
  - intros hm Hm Hpa raised.
    unfold Auth.lambda_handler, Bookings.lambda_handler, Users.lambda_handler,
      bind, lift, ret, print, subscript.
    rewrite Hte, Hm, Hpa. now repeat split.
Qed.

Lemma stubs_missing_key_witness :
  let event := [("path", VStr "/auth/login")] in
  exists te,
    dumps (VDict event) = Returns te
    /\ Auth.lambda_handler event VNone [] =
       (Raises (Exn "KeyError" "'httpMethod'"), [log_line te]).
Proof.
  intros event.
  destruct (stubs_missing_key event VNone [] eq_refl) as [te [Hte [Hmissing _]]].
  exists te. split; [exact Hte|].
  exact (proj1 (Hmissing eq_refl)).
Defined.

(** ** Reading the error text back *)

Lemma read_string_escape_char (c : ascii) (rest : string) :
  read_string (escape_char c ++ rest) = push c (read_string rest).
Proof.
  destruct c as [[] [] [] [] [] [] [] []]; reflexivity.
Qed.

(** What [escape] writes, [read_string] reads back. *)
Lemma read_string_escape (m rest : string) :
  read_string (escape m ++ String dquote rest) = Some (m, rest).
Proof.
  induction m as [|c m IH]; [reflexivity|].
  cbn [escape]. rewrite append_assoc, read_string_escape_char, IH. reflexivity.
Qed.

Lemma strip_prefix_app (p s : string) : strip_prefix p (p ++ s) = Some s.
Proof.
  induction p as [|c p IH]; [reflexivity|].
  cbn [append strip_prefix]. now rewrite Ascii.eqb_refl.
Qed.

(** The error text of an error body is the text that was put in. *)
Lemma read_error_body_error_body (m : string) :
  read_error_body (error_body m) = Some m.
Proof.
  assert (E : error_body m = jq "{'error': '" ++ escape m ++ String dquote "}").
  { unfold error_body, encode_str. simpl. now rewrite append_assoc. }
  rewrite E. unfold read_error_body.
  now rewrite strip_prefix_app, read_string_escape.
Qed.

(** X17.  List Flights answers 200 exactly when the scan returns a dict
    whose Items entry (or the empty list, when there is none) is made of
    JSON values only; in every other case (the scan raises, its response
    is not a dict, an item holds a Decimal or a set) it answers 500. *)
Theorem list_flights_200_iff :
  forall (S : Type) (tbl : table S) (event : dict) (w w' : world S) (r : value),
    list_flights tbl event w = (Returns r, w') ->
    (status r = Some (VInt 200) \/ status r = Some (VInt 500))
    /\ (status r = Some (VInt 200) <->
        exists resp, fst (scan tbl (store w)) = Returns (VDict resp)
                     /\ json_pure (dict_get resp "Items" (VList [])) = true).
Proof.
  intros S tbl event w w' r. rewrite list_flights_run. cbv zeta. unfold answer_500.
  destruct (fst (scan tbl (store w))) as [resp|e].
  - destruct resp as [| | | | | | |d];
      try (intros [= <- _]; split; [now right|];
           split; [discriminate | intros [resp [H _]]; discriminate H]).
    cbn [method_get].
    pose proof (dumps_spec (dict_get d "Items" (VList []))) as Hs.
    destruct (json_pure (dict_get d "Items" (VList []))) eqn:Hp.
    + destruct Hs as [text ->]. intros [= <- _]. split; [now left|].
      split; [intros _; now exists d | reflexivity].
    + destruct Hs as [e [-> _]]. intros [= <- _]. split; [now right|].
      split; [discriminate|].
      intros [resp [[= <-] Hpure]]. congruence.
  - intros [= <- _]. split; [now right|].
    split; [discriminate | intros [resp [H _]]; discriminate H].
Qed.

Lemma list_flights_200_iff_witness :
  let event := [("httpMethod", VStr "GET"); ("path", VStr "/flights")] in
  let w := World [fl456] [] in
  exists r w',
    list_flights memory_table event w = (Returns r, w')
    /\ status r = Some (VInt 200).
Proof.
  intros event w.
  exists (response_with_headers 200
            (jq "{'success': true, 'data': [{'flight_id': 'FL456', 'origin': 'BCN', 'destination': 'MAD'}]}")).
  exists (World [fl456] [Scan]).
  assert (E : list_flights memory_table event w =
              (Returns (response_with_headers 200
                          (jq "{'success': true, 'data': [{'flight_id': 'FL456', 'origin': 'BCN', 'destination': 'MAD'}]}")),
               World [fl456] [Scan])) by reflexivity.
  split; [exact E|].
  apply (proj2 (list_flights_200_iff (list value) memory_table event w _ _ E)).
  exists [("Items", VList [fl456])]. split; reflexivity.
Defined.

(** X18.  For every error text this model can hold (code points below
    256), reading the string literal in the body of the 500 response by the
    escapes of the JSON grammar gives back exactly the text the table
    raised: the escaping of quotes, backslashes, control characters and
    the characters from 127 to 255 loses nothing. *)
Theorem store_error_text_read_back :
  forall (S : Type) (tbl : table S) (event : dict) (w : world S) (e : exn) (s' : S),
    (scan tbl (store w) = (Raises e, s') ->
       exists body, fst (list_flights tbl event w) = Returns (response 500 body)
                    /\ read_error_body body = Some (str e))
    /\ (forall (pp : dict) (fid : value),
          dict_get event "pathParameters" (VDict []) = VDict pp ->
          lookup pp "flight_id" = Some fid ->
          truthy fid = true ->
          get_item tbl (VDict [("flight_id", fid)]) (store w) = (Raises e, s') ->
          exists body, fst (get_flight tbl event w) = Returns (response 500 body)
                       /\ read_error_body body = Some (str e)).
Proof.
  intros S tbl event w e s'. split.
  - intros Hscan. exists (error_body (str e)).
    split; [|apply read_error_body_error_body].
    rewrite list_flights_run, Hscan. reflexivity.
  - intros pp fid Hpp Hfid Ht Hget. exists (error_body (str e)).
    split; [|apply read_error_body_error_body].
    rewrite get_flight_run, Hpp. cbn [method_get]. unfold dict_get.
    rewrite Hfid, Ht. cbv zeta. rewrite Hget. reflexivity.
Qed.

Lemma store_error_text_read_back_witness :
  let e := Exn "ClientError" (String dquote "quoted" ++ String dquote " \ and more") in
  exists body,
    fst (list_flights (broken_table e) [] (World tt [])) = Returns (response 500 body)
    /\ read_error_body body = Some (str e).
Proof.
  intros e.
  exact (proj1 (store_error_text_read_back unit (broken_table e) [] (World tt []) e tt)
           eq_refl).
Defined.

(** X19.  Whatever the event, a stub that returns at all returns status
    501 with the Content-Type and Access-Control-Allow-Origin headers: no
    request gets any other status from the auth, bookings or users
    handler. *)
Theorem stubs_only_501 :
  forall (event : dict) (context : value) (out out' : stdout) (r : value),
    Auth.lambda_handler event context out = (Returns r, out')
    \/ Bookings.lambda_handler event context out = (Returns r, out')
    \/ Users.lambda_handler event context out = (Returns r, out') ->
    status r = Some (VInt 501) /\ headers_of r = Some json_headers.
Proof.
  intros event context out out' r.
  unfold Auth.lambda_handler, Bookings.lambda_handler, Users.lambda_handler,
    bind, lift, ret, print.
  destruct (dumps (VDict event)) as [te|e];
    [|intros [H|[H|H]]; discriminate H].
  destruct (subscript event "httpMethod") as [hm|e];
    [|intros [H|[H|H]]; discriminate H].
  destruct (subscript event "path") as [pa|e];
    [|intros [H|[H|H]]; discriminate H].
  intros [H|[H|H]].
  - destruct (dumps (VDict _)) as [body|e]; [|discriminate H].
    injection H as <- _. now split.
  - destruct (dumps (VDict _)) as [body|e]; [|discriminate H].
    injection H as <- _. now split.
  - destruct (method_get _ "Authorization" VNone) as [upper|e]; [|discriminate H].
    destruct (truthy upper).
    + destruct (dumps (VDict _)) as [body|e]; [|discriminate H].
      injection H as <- _. now split.
    + destruct (method_get _ "authorization" VNone) as [lower|e]; [|discriminate H].
      destruct (dumps (VDict _)) as [body|e]; [|discriminate H].
      injection H as <- _. now split.
Qed.

Lemma stubs_only_501_witness :
  let event := [("httpMethod", VStr "PATCH"); ("path", VStr "/anything")] in
  exists r out',
    Bookings.lambda_handler event VNone [] = (Returns r, out')
    /\ status r = Some (VInt 501) /\ headers_of r = Some json_headers.
Proof.
  intros event.
  destruct (Bookings.lambda_handler event VNone []) as [[r|e] out'] eqn:E;
    [|discriminate E].
  exists r, out'. split; [reflexivity|].
  exact (stubs_only_501 event VNone [] out' r (or_intror (or_introl E))).
Defined.

(** Case analysis on the [json.dumps] call the goal is waiting for. *)
Ltac destruct_body :=
  match goal with
  | |- context [match dumps ?v with _ => _ end] => destruct (dumps v)
  end.

(** X20.  On an event decoded from JSON each stub prints exactly one line,
    the event as JSON after the words Received event, whether it then
    answers or raises. *)
Theorem stubs_log_once :
  forall (event : dict) (context : value) (out : stdout),
    json_pure (VDict event) = true ->
    exists te,
      dumps (VDict event) = Returns te
      /\ snd (Auth.lambda_handler event context out) = (out ++ [log_line te])%list
      /\ snd (Bookings.lambda_handler event context out) = (out ++ [log_line te])%list
      /\ snd (Users.lambda_handler event context out) = (out ++ [log_line te])%list.
Proof.
  intros event context out Hp.
  destruct (dumps_pure _ Hp) as [te Hte]. exists te. split; [exact Hte|].
  unfold Auth.lambda_handler, Bookings.lambda_handler, Users.lambda_handler,
    bind, lift, ret, print.
  rewrite Hte.
  destruct (subscript event "httpMethod") as [hm|e]; [|now repeat split].
  destruct (subscript event "path") as [pa|e]; [|now repeat split].
  split; [|split].
  - now destruct_body.
  - now destruct_body.
  - destruct (method_get _ "Authorization" VNone) as [upper|e]; [|reflexivity].
    destruct (truthy upper).
    + now destruct_body.
    + destruct (method_get _ "authorization" VNone) as [lower|e]; [|reflexivity].
      now destruct_body.
Qed.

Lemma stubs_log_once_witness :
  let event := [("httpMethod", VStr "GET"); ("headers", VNone)] in
  exists te,
    dumps (VDict event) = Returns te
    /\ snd (Users.lambda_handler event VNone ["earlier line"])
       = ["earlier line"; log_line te].
Proof.
  intros event.
  destruct (stubs_log_once event VNone ["earlier line"] eq_refl)
    as [te [Hte [_ [_ Husers]]]].
  exists te. split; [exact Hte | exact Husers].
Defined.
